(** * AI trading signals app: the dashboard code and the signal pipeline

    The repository ships a React dashboard ([src/config/api.ts],
    [src/services/api.ts]), a plain browser script ([clean_script.js]) and
    the design of a scan / indicator / fusion pipeline.  The browser code is
    embedded from its source; the pipeline components are modelled from
    their contracts.

    JavaScript strings are sequences of UTF-16 code units, so they are
    modelled as [list N]; identifiers of DOM elements, which only occur as
    literals, stay Rocq strings.  Prices, indicator values and scores of
    the pipeline are exact rationals: rounding is not modelled, a division
    by zero is. *)

From Stdlib Require Import QArith Qabs Qminmax Lqa ZArith Lia List DecimalString.
From stdpp Require Import gmap strings list.

Set Warnings "-register-all".
Open Scope list_scope.

(** ** JavaScript strings *)

Module JS.

Definition jsstring := list N.

Definition code_unit (a : Ascii.ascii) : N := Ascii.N_of_ascii a.

(** A literal of the source, code unit by code unit (ASCII literals only). *)
Definition lit (s : string) : jsstring :=
  List.map code_unit (String.list_ascii_of_string s).

Definition dquote : jsstring := [34%N].
Definition newline : jsstring := [10%N].

(** WhiteSpace and LineTerminator of ECMAScript, the code units that
    [String.prototype.trim] strips. *)
Definition is_white (c : N) : bool :=
  ((9 <=? c) && (c <=? 13) || (c =? 32) || (c =? 160) || (c =? 5760)
   || (8192 <=? c) && (c <=? 8202) || (c =? 8232) || (c =? 8233)
   || (c =? 8239) || (c =? 8287) || (c =? 12288) || (c =? 65279))%N.

Fixpoint trimStart (s : jsstring) : jsstring :=
  match s with
  | [] => []
  | c :: s' => if is_white c then trimStart s' else s
  end.

Definition trimEnd (s : jsstring) : jsstring := rev (trimStart (rev s)).

Definition trim (s : jsstring) : jsstring := trimEnd (trimStart s).

(** [arr.slice(0, n)] on an array. *)
Definition slice0 {A} (n : nat) (l : list A) : list A := firstn n l.

(** Truthiness of a value that is a string or [undefined]. *)
Definition truthy (v : option jsstring) : bool :=
  match v with
  | None => false
  | Some [] => false
  | Some (_ :: _) => true
  end.

(** [a || b] where [a] is a string or [undefined] and [b] a string. *)
Definition or_else (a : option jsstring) (b : jsstring) : jsstring :=
  match a with
  | Some (c :: s) => c :: s
  | _ => b
  end.

End JS.

Import JS.

(** ** [src/config/api.ts]: the dashboard's colour helpers *)

Module Dashboard.

(** [interface SignalData]: [signal_type] is an unconstrained string and
    [confidence_score] an unconstrained number in the interface. *)
Record SignalData := {
  sd_symbol : jsstring;
  sd_signal_type : jsstring;
  sd_confidence_score : Q;
  sd_timestamp : jsstring
}.

Inductive ChipColor := success | error | warning | default.

Definition getTrendColor (trend : jsstring) : ChipColor :=
  if decide (trend = lit "UP") then success
  else if decide (trend = lit "DOWN") then error
  else warning.

Definition getSignalColor (signalType : jsstring) : ChipColor :=
  if decide (signalType = lit "BUY") then success
  else if decide (signalType = lit "SELL") then error
  else if decide (signalType = lit "HOLD") then warning
  else default.

Definition mockSignals : list SignalData :=
  [ {| sd_symbol := lit "AAPL"; sd_signal_type := lit "BUY";
       sd_confidence_score := 85; sd_timestamp := lit "2024-01-15T10:30:00Z" |};
    {| sd_symbol := lit "GOOGL"; sd_signal_type := lit "SELL";
       sd_confidence_score := 78; sd_timestamp := lit "2024-01-15T09:45:00Z" |};
    {| sd_symbol := lit "TSLA"; sd_signal_type := lit "HOLD";
       sd_confidence_score := 72; sd_timestamp := lit "2024-01-15T08:15:00Z" |};
    {| sd_symbol := lit "NVDA"; sd_signal_type := lit "BUY";
       sd_confidence_score := 91; sd_timestamp := lit "2024-01-15T07:30:00Z" |} ].

End Dashboard.

(** ** The browser's network and DOM, as far as the scripts use them *)

Module Net.

(** The parsed body of a response, as far as the scripts look at it:
    [null], or a value with the length of its [signals] and its [message]
    (a number, string or boolean has neither). *)
Inductive Json :=
| JNull
| JObj (signals_length : option N) (message : option jsstring).

(** What the server does with one request.  Times are milliseconds since
    the request was sent. *)

Inductive ServerBehaviour :=
| Replies (after_ms : N) (status : N) (body : option Json)
| Drops (after_ms : N)
| Silent.

Inductive NetError :=
| ERR_NETWORK
| ERR_BAD_RESPONSE (status : N)
| ECONNABORTED.

Inductive Settled (A : Type) :=
| Fulfilled (at_ms : N) (v : A)
| Rejected (at_ms : N) (e : NetError)
| Pending.
Arguments Fulfilled {A} _ _.
Arguments Rejected {A} _ _.
Arguments Pending {A}.

Record Response := { res_status : N; res_body : option Json }.

(** [window.fetch(url)] without an [AbortSignal]: the promise is fulfilled
    as soon as the response arrives, whatever its status; it is rejected
    on a network error; nothing ever settles it when the server stays
    silent. *)
Definition window_fetch (b : ServerBehaviour) : Settled Response :=
  match b with
  | Replies t st body => Fulfilled t {| res_status := st; res_body := body |}
  | Drops t => Rejected t ERR_NETWORK
  | Silent => Pending
  end.

Definition settled_by {A} (bound : N) (s : Settled A) : Prop :=
  match s with
  | Fulfilled t _ => (t <= bound)%N
  | Rejected t _ => (t <= bound)%N
  | Pending => False
  end.

Definition is_rejected {A} (s : Settled A) : bool :=
  match s with
  | Rejected _ _ => true
  | _ => false
  end.

End Net.

Module Dom.

(** An element: the properties the scripts read or write.  [el_value] is
    [undefined] for anything but a form control.  Children are the
    elements attached with [appendChild]; markup assigned to [innerHTML]
    is kept as the assigned string.  [el_onclick] records the symbol that
    the card's click handler copies into the analyzer input. *)
Inductive Element := mkElement {
  el_value : option jsstring;
  el_innerHTML : jsstring;
  el_cssText : jsstring;
  el_color : jsstring;
  el_display : jsstring;
  el_onclick : option jsstring;
  el_children : list Element
}.

(** [document.createElement('div')] *)
Definition createElement : Element :=
  {| el_value := None; el_innerHTML := []; el_cssText := []; el_color := [];
     el_display := []; el_onclick := None; el_children := [] |}.

Definition set_innerHTML (h : jsstring) (e : Element) : Element :=
  {| el_value := el_value e; el_innerHTML := h; el_cssText := el_cssText e;
     el_color := el_color e; el_display := el_display e;
     el_onclick := el_onclick e; el_children := [] |}.

Definition set_cssText (c : jsstring) (e : Element) : Element :=
  {| el_value := el_value e; el_innerHTML := el_innerHTML e; el_cssText := c;
     el_color := el_color e; el_display := el_display e;
     el_onclick := el_onclick e; el_children := el_children e |}.

Definition set_color (c : jsstring) (e : Element) : Element :=
  {| el_value := el_value e; el_innerHTML := el_innerHTML e;
     el_cssText := el_cssText e; el_color := c; el_display := el_display e;
     el_onclick := el_onclick e; el_children := el_children e |}.

Definition set_display (d : jsstring) (e : Element) : Element :=
  {| el_value := el_value e; el_innerHTML := el_innerHTML e;
     el_cssText := el_cssText e; el_color := el_color e; el_display := d;
     el_onclick := el_onclick e; el_children := el_children e |}.

Definition set_onclick (s : jsstring) (e : Element) : Element :=
  {| el_value := el_value e; el_innerHTML := el_innerHTML e;
     el_cssText := el_cssText e; el_color := el_color e;
     el_display := el_display e; el_onclick := Some s;
     el_children := el_children e |}.

Definition appendChild (child parent : Element) : Element :=
  {| el_value := el_value parent; el_innerHTML := el_innerHTML parent;
     el_cssText := el_cssText parent; el_color := el_color parent;
     el_display := el_display parent; el_onclick := el_onclick parent;
     el_children := el_children parent ++ [child] |}.

(** What the page observes of a script besides the DOM. *)
Inductive Effect :=
| Alert (msg : jsstring)
| ConsoleLog (args : list jsstring)
| ConsoleError (label : jsstring)
| Fetch (url : jsstring).

Record World := {
  document : gmap string Element;
  effects : list Effect
}.

Definition getElementById (id : string) (w : World) : option Element :=
  document w !! id.

Definition setElement (id : string) (e : Element) (w : World) : World :=
  {| document := <[id := e]> (document w); effects := effects w |}.

Definition emit (e : Effect) (w : World) : World :=
  {| document := document w; effects := effects w ++ [e] |}.

(** How a call of a script function ends. *)
Inductive Completion :=
| Returned
| ThrewTypeError
| AwaitsForever.

End Dom.

(** ** [clean_script.js] *)

Module CleanScript.
Import Net Dom.

(** A character outside the Basic Multilingual Plane as its surrogate pair. *)
Definition astral (cp : N) : jsstring :=
  [(55296 + (cp - 65536) / 1024)%N; (56320 + (cp - 65536) mod 1024)%N].

Record MarketInfo := {
  name : jsstring;
  icon : jsstring;
  color : jsstring;
  description : jsstring;
  categories : list (jsstring * list jsstring)
}.

Definition syms (l : list string) : list jsstring := List.map lit l.

(** [const marketData]; an object's own string keys are enumerated in
    insertion order, so the object is an association list. *)
Definition marketData : list (jsstring * MarketInfo) :=
  [ (lit "stocks",
     {| name := lit "STOCKS"; icon := astral 0x1F4CA; color := lit "#4CAF50";
        description := lit "US Equities & ETFs";
        categories :=
          [ (lit "NASDAQ", syms ["AAPL"; "GOOGL"; "MSFT"; "AMZN"; "TSLA"; "META";
                                 "NVDA"; "NFLX"; "AMD"; "INTC"; "CRM"; "ADBE"]);
            (lit "NYSE", syms ["JPM"; "JNJ"; "PG"; "UNH"; "HD"; "BAC"; "MA"; "V";
                               "NKE"; "DIS"; "WMT"; "XOM"]);
            (lit "ETFs", syms ["SPY"; "QQQ"; "IWM"; "DIA"; "GLD"; "SLV"; "USO";
                               "TLT"; "VXX"; "PYPL"; "CVX"; "KO"]) ] |});
    (lit "forex",
     {| name := lit "FOREX"; icon := astral 0x1F4B1; color := lit "#2196F3";
        description := lit "Currency Pairs";
        categories :=
          [ (lit "MAJORS", syms ["EURUSD=X"; "GBPUSD=X"; "USDJPY=X"; "USDCHF=X";
                                 "AUDUSD=X"; "USDCAD=X"; "NZDUSD=X"]);
            (lit "MINORS", syms ["EURGBP=X"; "EURJPY=X"; "GBPJPY=X"; "AUDJPY=X";
                                 "EURAUD=X"; "GBPAUD=X"; "AUDNZD=X"]);
            (lit "EXOTICS", syms ["USDSEK=X"; "USDNOK=X"; "USDDKK=X"; "EURCHF=X";
                                  "GBPCHF=X"; "USDZAR=X"; "USDTRY=X"]) ] |});
    (lit "crypto",
     {| name := lit "CRYPTO"; icon := [0x20BF%N]; color := lit "#FFC107";
        description := lit "Digital Assets";
        categories :=
          [ (lit "MAJORS", syms ["BTC-USD"; "ETH-USD"; "BNB-USD"; "XRP-USD"; "SOL-USD"]);
            (lit "DEFI", syms ["UNI-USD"; "AAVE-USD"; "COMP-USD"; "MKR-USD"; "SUSHI-USD"]);
            (lit "LAYER1", syms ["ADA-USD"; "DOT-USD"; "AVAX-USD"; "MATIC-USD";
                                 "ATOM-USD"]) ] |});
    (lit "futures",
     {| name := lit "FUTURES"; icon := [0x26FD%N]; color := lit "#FF9800";
        description := lit "Commodities & Indices";
        categories :=
          [ (lit "METALS", syms ["GC"; "SI"; "PL"; "PA"; "HG"; "AL"; "NI"; "ZN"]);
            (lit "ENERGY", syms ["CL"; "NG"; "HO"; "RB"; "BZ"; "QS"; "BZ=F"]);
            (lit "INDICES", syms ["ES"; "NQ"; "YM"; "RTY"; "SPX"; "NDX"; "DJI"; "RUT"]);
            (lit "AGRICULTURE", syms ["ZC"; "ZS"; "ZW"; "KC"; "CC"; "CT"; "SB"; "CC=F"]);
            (lit "BONDS", syms ["ZB"; "ZN"; "ZF"; "ZT"; "GE"; "TU"; "FV"; "TY"]) ] |});
    (lit "indices",
     {| name := lit "INDICES"; icon := astral 0x1F4C8; color := lit "#f44336";
        description := lit "Market Indexes & ETFs";
        categories :=
          [ (lit "US_INDICES", syms ["SPY"; "QQQ"; "IWM"; "DIA"; "VTI"; "VOO"; "VEA";
                                     "VWO"]);
            (lit "INTERNATIONAL", syms ["EFA"; "EEM"; "ACWI"; "VT"; "VXUS"; "BND";
                                        "TLT"; "IEF"]);
            (lit "VOLATILITY", syms ["VXX"; "UVXY"; "TVIX"; "VIXY"; "SHY"; "LQD";
                                     "HYG"; "EMB"]) ] |});
    (lit "metals",
     {| name := lit "METALS"; icon := astral 0x1F947; color := lit "#9C27B0";
        description := lit "Precious Metals & Commodities";
        categories :=
          [ (lit "PRECIOUS", syms ["GC"; "SI"; "PL"; "PA"; "GLD"; "SLV"; "PPLT";
                                   "PALL"]);
            (lit "MINING", syms ["GDX"; "GDXJ"; "SIL"; "COPX"; "PICK"; "REMX"; "URA";
                                 "LIT"]);
            (lit "AGRICULTURE", syms ["BAL"; "NIB"; "JO"; "CAFE"; "WEAT"; "CORN";
                                      "SOYB"; "CANE"]) ] |}) ].

(** [obj[key]] on the object's own string keys (names that a plain
    object inherits from [Object.prototype] are not represented). *)
Fixpoint property {V} (key : jsstring) (obj : list (jsstring * V)) : option V :=
  match obj with
  | [] => None
  | (k, v) :: rest => if decide (k = key) then Some v else property key rest
  end.

(** The style sheets written by [showMarketSymbols]; the indentation of
    the template literals is not reproduced. *)
Definition headerCss (info : MarketInfo) : jsstring :=
  lit "background: linear-gradient(135deg, " ++ color info ++ lit "20, "
  ++ color info ++ lit "10); border-left: 4px solid " ++ color info
  ++ lit "; border-radius: 6px; padding: 10px 15px; margin: 15px 0 10px 0; "
  ++ lit "font-weight: bold; color: " ++ color info
  ++ lit "; font-size: 0.9em; text-transform: uppercase; letter-spacing: 0.5px;".

Definition gridCss : jsstring :=
  lit "display: grid; grid-template-columns: repeat(auto-fit, minmax(120px, 1fr)); "
  ++ lit "gap: 8px; margin-bottom: 20px;".

Definition cardCss (info : MarketInfo) : jsstring :=
  lit "background: rgba(255,255,255,0.08); border: 1px solid " ++ color info
  ++ lit "30; border-radius: 6px; padding: 8px; text-align: center; "
  ++ lit "cursor: pointer; transition: all 0.3s ease; "
  ++ lit "backdrop-filter: blur(5px); font-size: 0.85em;".

Definition cardHtml (info : MarketInfo) (categoryName symbol : jsstring) : jsstring :=
  lit "<div style=" ++ dquote ++ lit "font-weight: bold; color: " ++ color info
  ++ lit "; margin-bottom: 2px;" ++ dquote ++ lit ">" ++ symbol ++ lit "</div>"
  ++ lit "<div style=" ++ dquote ++ lit "font-size: 0.7em; opacity: 0.7;" ++ dquote
  ++ lit ">" ++ categoryName ++ lit "</div>".

(** The body of [symbols.slice(0, 8).forEach(symbol => ...)]: one card.
    The hover handlers only restyle the card and are left out. *)
Definition symbolCard (info : MarketInfo) (categoryName symbol : jsstring) : Element :=
  set_onclick symbol
    (set_innerHTML (cardHtml info categoryName symbol)
       (set_cssText (cardCss info) createElement)).

Definition categoryHeader (info : MarketInfo) (categoryName : jsstring) : Element :=
  set_innerHTML (astral 0x1F4C2 ++ lit " " ++ categoryName)
    (set_cssText (headerCss info) createElement).

Definition categoryGrid (info : MarketInfo) (categoryName : jsstring)
    (symbols : list jsstring) : Element :=
  fold_left (fun grid symbol => appendChild (symbolCard info categoryName symbol) grid)
    (slice0 8 symbols)
    (set_cssText gridCss createElement).

(** The body of [Object.entries(categories).forEach(...)]. *)
Definition renderCategory (info : MarketInfo) (symbolsList : Element)
    (entry : jsstring * list jsstring) : Element :=
  let '(categoryName, symbols) := entry in
  appendChild (categoryGrid info categoryName symbols)
    (appendChild (categoryHeader info categoryName) symbolsList).

(** [showMarketSymbols(market)], over any market table. *)
Definition showMarketSymbols_in (table : list (jsstring * MarketInfo))
    (market : jsstring) (w : World) : World * Completion :=
  let w := emit (ConsoleLog [lit "Showing symbols for market:"; market]) w in
  match getElementById "market-symbols" w,
        getElementById "market-symbols-title" w,
        getElementById "symbols-list" w with
  | Some symbolsContainer, Some symbolsTitle, Some symbolsList =>
      match property market table with
      | None => (w, ThrewTypeError)
      | Some marketInfo =>
          let w := setElement "market-symbols-title"
                     (set_color (color marketInfo)
                        (set_innerHTML (icon marketInfo ++ lit " " ++ name marketInfo
                                        ++ lit " Categories") symbolsTitle)) w in
          let cleared := set_innerHTML [] symbolsList in
          let w := setElement "symbols-list"
                     (fold_left (renderCategory marketInfo) (categories marketInfo)
                        cleared) w in
          let w := setElement "market-symbols"
                     (set_display (lit "block") symbolsContainer) w in
          (w, Returned)
      end
  | _, _, _ => (emit (ConsoleLog [lit "Missing elements"]) w, Returned)
  end.

Definition showMarketSymbols : jsstring -> World -> World * Completion :=
  showMarketSymbols_in marketData.

(** The markup written by the request functions; white space between
    the tags of the template literals is not reproduced. *)

(** [`${n}`] for a non-negative integer. *)
Definition decimal (n : N) : jsstring := lit (NilZero.string_of_uint (N.to_uint n)).

(** [x || 0] for a number or [undefined]. *)
Definition or_zero (x : option N) : N :=
  match x with
  | Some n => n
  | None => 0%N
  end.

Definition styled (colour : string) (text : jsstring) : jsstring :=
  lit "<div style=" ++ dquote ++ lit "color: " ++ lit colour ++ lit ";" ++ dquote
  ++ lit ">" ++ text ++ lit "</div>".

Definition loading (text : jsstring) : jsstring :=
  lit "<div class=" ++ dquote ++ lit "loading" ++ dquote ++ lit ">" ++ text
  ++ lit "</div>".

Definition report (colour : string) (headline detail : jsstring) : jsstring :=
  lit "<div style=" ++ dquote ++ lit "color: " ++ lit colour
  ++ lit "; font-weight: bold; margin-bottom: 10px;" ++ dquote ++ lit ">"
  ++ headline ++ lit "</div><div style=" ++ dquote
  ++ lit "font-size: 0.9em; color: #ccc;" ++ dquote ++ lit ">" ++ detail
  ++ lit "</div>".

(** [if (div) { div.innerHTML = html }] for the element found under [id]
    before the request was sent. *)
Definition show (id : string) (div : option Element) (html : jsstring)
    (w : World) : World :=
  match div with
  | Some e => setElement id (set_innerHTML html e) w
  | None => w
  end.

(** The [try { await fetch(url); await response.json(); ... } catch]
    skeleton shared by the three request functions: [onData] renders the
    parsed body, [onError] is the catch block.  A body that is not JSON
    makes [response.json()] reject; a body that parses to [null] makes
    the property access inside [if (div)] throw; both land in the catch
    block. *)
Definition fetch_then (server : jsstring -> ServerBehaviour) (url : jsstring)
    (div : option Element)
    (onData : option N -> option jsstring -> World -> World)
    (onError : World -> World) (w : World) : World * Completion :=
  let w := emit (Fetch url) w in
  match window_fetch (server url) with
  | Pending => (w, AwaitsForever)
  | Rejected _ _ => (onError w, Returned)
  | Fulfilled _ response =>
      match res_body response with
      | Some (JObj signals_length message) => (onData signals_length message w, Returned)
      | Some JNull =>
          match div with
          | Some _ => (onError w, Returned)
          | None => (w, Returned)
          end
      | None => (onError w, Returned)
      end
  end.

(** [async function scanFullMarket()] *)
Definition scanFullMarket (server : jsstring -> ServerBehaviour) (w : World)
    : World * Completion :=
  let w := emit (ConsoleLog [lit "Scanning full market..."]) w in
  let scannerDiv := getElementById "scanner-results" w in
  let w := show "scanner-results" scannerDiv
             (loading (astral 0x1F50D
                       ++ lit " Scanning entire market for trading signals...")) w in
  fetch_then server (lit "/api/scan/full-market") scannerDiv
    (fun signals_length message =>
       show "scanner-results" scannerDiv
         (report "#4CAF50"
            ([0x2705%N] ++ lit " Market scan completed! Found "
             ++ decimal (or_zero signals_length) ++ lit " signals")
            (or_else message (lit "Market analysis complete"))))
    (fun w =>
       show "scanner-results" scannerDiv
         (styled "#f44336" ([0x274C%N] ++ lit " Error scanning market"))
         (emit (ConsoleError (lit "Scan error:")) w))
    w.

(** [symbolInput?.value?.trim()] *)
Definition symbol_of (symbolInput : option Element) : option jsstring :=
  match symbolInput with
  | Some e => option_map trim (el_value e)
  | None => None
  end.

(** [async function analyzeCustomSymbol()] *)
Definition analyzeCustomSymbol (server : jsstring -> ServerBehaviour) (w : World)
    : World * Completion :=
  let symbolInput := getElementById "analyze-symbol" w in
  match symbol_of symbolInput with
  | Some (c :: rest) =>
      let symbol := c :: rest in
      let w := emit (ConsoleLog [lit "Analyzing symbol:"; symbol]) w in
      let analyzerDiv := getElementById "analyzer-results" w in
      let w := show "analyzer-results" analyzerDiv
                 (loading (astral 0x1F4CA ++ lit " Analyzing " ++ symbol ++ lit "...")) w in
      fetch_then server (lit "/api/analyze/" ++ symbol) analyzerDiv
        (fun _ message =>
           show "analyzer-results" analyzerDiv
             (report "#2196F3" (astral 0x1F4CA ++ lit " Analysis for " ++ symbol)
                (or_else message (lit "Analysis complete"))))
        (fun w =>
           show "analyzer-results" analyzerDiv
             (styled "#f44336" ([0x274C%N] ++ lit " Error analyzing symbol"))
             (emit (ConsoleError (lit "Analysis error:")) w))
        w
  | Some [] | None =>
      (emit (Alert (lit "Please enter a symbol to analyze")) w, Returned)
  end.

(** [async function getSignals()] *)
Definition getSignals (server : jsstring -> ServerBehaviour) (w : World)
    : World * Completion :=
  let w := emit (ConsoleLog [lit "Getting live signals..."]) w in
  let signalsDiv := getElementById "signals-display" w in
  let w := show "signals-display" signalsDiv
             (loading (astral 0x1F4C8 ++ lit " Getting live trading signals...")) w in
  fetch_then server (lit "/api/live/signals") signalsDiv
    (fun _ message =>
       show "signals-display" signalsDiv
         (report "#9C27B0" (astral 0x1F4C8 ++ lit " Live Signals")
            (or_else message (lit "Live signals loaded"))))
    (fun w =>
       show "signals-display" signalsDiv
         (styled "#f44336" ([0x274C%N] ++ lit " Error loading signals"))
         (emit (ConsoleError (lit "Signals error:")) w))
    w.

Definition whitespace_only (v : jsstring) : bool := forallb is_white v.

(** The analyzer input is absent, has no value, or holds only white space. *)
Definition blank (symbolInput : option Element) : bool :=
  match symbolInput with
  | None => true
  | Some e =>
      match el_value e with
      | None => true
      | Some v => whitespace_only v
      end
  end.

(** The header and the grid that one category contributes. *)
Definition rendered (info : MarketInfo) (entry : jsstring * list jsstring)
    : list Element :=
  [categoryHeader info (fst entry); categoryGrid info (fst entry) (snd entry)].

Definition page_ready (w : World) : Prop :=
  is_Some (getElementById "market-symbols" w)
  /\ is_Some (getElementById "market-symbols-title" w)
  /\ is_Some (getElementById "symbols-list" w).

End CleanScript.

(** ** [src/services/api.ts]: the axios client *)

Module ApiService.
Import Net.

(** [API_ENDPOINTS] of [src/config/api.ts], over the configured base URL. *)
Section Endpoints.
Variable baseURL : jsstring.

Definition markets : jsstring := baseURL ++ lit "/api/markets".
Definition signals : jsstring := baseURL ++ lit "/api/signals".
Definition analysis : jsstring := baseURL ++ lit "/api/analysis".
Definition sentiment : jsstring := baseURL ++ lit "/api/sentiment".
Definition portfolio : jsstring := baseURL ++ lit "/api/portfolio".
End Endpoints.

(** The instance configuration given to [axios.create]. *)
Record InstanceConfig := {
  timeout : N;
  headers : list (string * string)
}.

Definition api : InstanceConfig :=
  {| timeout := 10000; headers := [("Content-Type", "application/json")] |}.

Inductive Method := GET | POST | PUT.

(** One request as handed to the instance.  [req_timeout] is the
    per-request override of the instance's [timeout]. *)
Record Request := {
  req_method : Method;
  req_url : jsstring;
  req_timeout : option N
}.

Definition request (m : Method) (url : jsstring) : Request :=
  {| req_method := m; req_url := url; req_timeout := None |}.

(** The functions of [apiService]. *)
Inductive Call :=
| getMarkets
| scanMarkets
| getMarketData (symbol : jsstring)
| getPriceHistory (symbol : jsstring) (period : option jsstring)
| getSignals
| generateSignal (symbol : jsstring)
| getSignal (id : jsstring)
| getLatestSignal (symbol : jsstring)
| getSignalHistory (symbol : jsstring)
| getDashboardSummary
| getTechnicalAnalysis (symbol : jsstring)
| getIndicator (symbol indicator : jsstring)
| getSentiment (symbol : jsstring)
| getNewsSentiment (symbol : jsstring)
| getSocialSentiment (symbol : jsstring)
| getFearGreedIndex
| getPortfolio
| addPosition
| closePosition (id : jsstring)
| getPosition (id : jsstring)
| getPerformance (period : option jsstring)
| getWatchlist.

(** A parameter with a default value. *)
Definition defaulted (x : option jsstring) (d : string) : jsstring :=
  match x with
  | Some v => v
  | None => lit d
  end.

Definition request_of (baseURL : jsstring) (c : Call) : Request :=
  match c with
  | getMarkets => request GET (markets baseURL)
  | scanMarkets => request POST (markets baseURL ++ lit "/scan")
  | getMarketData symbol => request GET (markets baseURL ++ lit "/" ++ symbol)
  | getPriceHistory symbol period =>
      request GET (markets baseURL ++ lit "/" ++ symbol ++ lit "/history?period="
                   ++ defaulted period "1mo")
  | getSignals => request GET (signals baseURL)
  | generateSignal _ => request POST (signals baseURL ++ lit "/generate")
  | getSignal id => request GET (signals baseURL ++ lit "/" ++ id)
  | getLatestSignal symbol => request GET (signals baseURL ++ lit "/latest/" ++ symbol)
  | getSignalHistory symbol => request GET (signals baseURL ++ lit "/history/" ++ symbol)
  | getDashboardSummary => request GET (signals baseURL ++ lit "/dashboard")
  | getTechnicalAnalysis symbol => request GET (analysis baseURL ++ lit "/" ++ symbol)
  | getIndicator symbol indicator =>
      request GET (analysis baseURL ++ lit "/" ++ symbol ++ lit "/indicator/" ++ indicator)
  | getSentiment symbol => request GET (sentiment baseURL ++ lit "/" ++ symbol)
  | getNewsSentiment symbol => request GET (sentiment baseURL ++ lit "/" ++ symbol ++ lit "/news")
  | getSocialSentiment symbol =>
      request GET (sentiment baseURL ++ lit "/" ++ symbol ++ lit "/social")
  | getFearGreedIndex => request GET (sentiment baseURL ++ lit "/fear-greed")
  | getPortfolio => request GET (portfolio baseURL)
  | addPosition => request POST (portfolio baseURL)
  | closePosition id => request PUT (portfolio baseURL ++ lit "/" ++ id ++ lit "/close")
  | getPosition id => request GET (portfolio baseURL ++ lit "/" ++ id)
  | getPerformance period =>
      request GET (portfolio baseURL ++ lit "/performance?period=" ++ defaulted period "1y")
  | getWatchlist => request GET (portfolio baseURL ++ lit "/watchlist")
  end.

(** The timeout in force for a request: the request's own, else the
    instance's. *)
Definition effective_timeout (cfg : InstanceConfig) (r : Request) : N :=
  match req_timeout r with
  | Some t => t
  | None => timeout cfg
  end.

(** The default status check of axios. *)
Definition validateStatus (status : N) : bool :=
  ((200 <=? status) && (status <? 300))%N.

(** What axios does with its [timeout] option: a positive timeout aborts a
    request that has not completed when it elapses and rejects the promise
    with [ECONNABORTED]; zero means no timeout.  A network failure rejects
    with [ERR_NETWORK], a status outside 2xx with [ERR_BAD_RESPONSE]. *)
Definition send (cfg : InstanceConfig) (r : Request) (b : ServerBehaviour)
    : Settled Response :=
  let limit := effective_timeout cfg r in
  let expired (t : N) : bool := ((0 <? limit) && (limit <? t))%N in
  match b with
  | Replies t status body =>
      if expired t then Rejected limit ECONNABORTED
      else if validateStatus status
           then Fulfilled t {| res_status := status; res_body := body |}
           else Rejected t (ERR_BAD_RESPONSE status)
  | Drops t =>
      if expired t then Rejected limit ECONNABORTED else Rejected t ERR_NETWORK
  | Silent =>
      if (0 <? limit)%N then Rejected limit ECONNABORTED else Pending
  end.

(** A function of [apiService] returns the promise of the instance's
    request unchanged: no catch, no retry. *)
Definition apiService (baseURL : jsstring) (c : Call) (b : ServerBehaviour)
    : Settled Response :=
  send api (request_of baseURL c) b.

(** The request exceeds its timeout: the server has not finished within
    [limit] milliseconds. *)
Definition exceeds (limit : N) (b : ServerBehaviour) : Prop :=
  match b with
  | Replies t _ _ => (limit < t)%N
  | Drops t => (limit < t)%N
  | Silent => True
  end.

End ApiService.

(** ** The signal pipeline: data model *)

Module Pipeline.
Local Open Scope Q_scope.

Record PricePoint := {
  timestamp : Z;
  open : Q;
  high : Q;
  low : Q;
  close : Q;
  volume : Q
}.

Record PriceSeries := {
  ps_symbol : string;
  ps_timeframe : string;
  points : list PricePoint
}.

Definition closes (s : PriceSeries) : list Q := List.map close (points s).

Definition last_close (s : PriceSeries) : Q := List.last (closes s) 0.

Definition Qlt_bool (a b : Q) : bool := negb (Qle_bool b a).

Definition Qsum (l : list Q) : Q := fold_right Qplus 0 l.

Definition Qpos (p : positive) : Q := inject_Z (Z.pos p).

End Pipeline.

(** ** IndicatorEngine *)

Module IndicatorEngine.
Import Pipeline.
Local Open Scope Q_scope.

(** Modelled from the spec: the indicator basket of IndicatorEngine
    (section 4.1), whose implementation is missing from the sources.  The
    basket holds the indicators whose standard definitions stay within
    rational arithmetic, with Bollinger bands carried as the middle band
    and the square of the half width [k * stdev]. *)
Inductive Indicator :=
| SMA (period : positive)
| EMA (period : positive)
| RSI (period : positive)
| MACD
| Bollinger (period : positive) (k : Q)
| ATR (period : positive).

(** Modelled from the spec: the values of an IndicatorSet (section 3),
    missing from the sources: a scalar or a small vector; [Undefined] is
    what a division by zero would leave behind (NaN or an infinity). *)
Inductive Value :=
| Scalar (x : Q)
| Macd (line signal histogram : Q)
| Band (middle half_width_sq : Q)
| Undefined.

(** Modelled from the spec: the lookback of the glossary, missing from
    the sources: the minimum number of points an indicator needs (200 for
    a 200-period average; MACD needs its slow average and its signal
    average on top). *)
Definition lookback (i : Indicator) : nat :=
  match i with
  | SMA n | EMA n | RSI n | ATR n => Pos.to_nat n
  | MACD => 34%nat
  | Bollinger n _ => Pos.to_nat n
  end.

(** Floating-point division, as far as definedness goes. *)
Definition fdiv (a b : Q) : Value :=
  if Qeq_bool b 0 then Undefined else Scalar (a / b).

Definition last_n {A} (n : nat) (l : list A) : list A :=
  skipn (length l - n)%nat l.

Definition mean (l : list Q) : Q := Qsum l / inject_Z (Z.of_nat (length l)).

Definition sma (n : positive) (xs : list Q) : Q := mean (last_n (Pos.to_nat n) xs).

(** Exponential smoothing with factor [alpha], seeded with the first
    value; the running values, oldest first. *)
Fixpoint smooth_from (alpha prev : Q) (xs : list Q) : list Q :=
  match xs with
  | [] => []
  | x :: rest =>
      let cur := alpha * x + (1 - alpha) * prev in
      cur :: smooth_from alpha cur rest
  end.

Definition smooth (alpha : Q) (xs : list Q) : list Q :=
  match xs with
  | [] => []
  | x :: rest => x :: smooth_from alpha x rest
  end.

Definition ema_series (n : positive) (xs : list Q) : list Q :=
  smooth (2 / (Qpos n + 1)) xs.

Definition ema (n : positive) (xs : list Q) : Q := List.last (ema_series n xs) 0.

(** Wilder smoothing: exponential smoothing with factor [1 / period]. *)
Definition wilder (n : positive) (xs : list Q) : Q :=
  List.last (smooth (1 / Qpos n) xs) 0.

(** Close-to-close changes. *)
Fixpoint changes (xs : list Q) : list Q :=
  match xs with
  | x :: ((y :: _) as rest) => (y - x) :: changes rest
  | _ => []
  end.

Definition gain (d : Q) : Q := Qmax d 0.
Definition loss (d : Q) : Q := Qmax (- d) 0.

Definition avg_gain (n : positive) (xs : list Q) : Q :=
  wilder n (List.map gain (changes xs)).

Definition avg_loss (n : positive) (xs : list Q) : Q :=
  wilder n (List.map loss (changes xs)).

(** Modelled from the spec: the RSI of IndicatorEngine (section 4.1),
    missing from the sources: Wilder smoothing, [100 - 100 / (1 + RS)]
    with [RS = average gain / average loss]; with no losses the value is
    the boundary 100. *)
Definition rsi (n : positive) (xs : list Q) : Value :=
  let g := avg_gain n xs in
  let l := avg_loss n xs in
  if Qeq_bool l 0 then Scalar 100
  else
    match fdiv g l with
    | Scalar rs =>
        match fdiv 100 (1 + rs) with
        | Scalar q => Scalar (100 - q)
        | _ => Undefined
        end
    | _ => Undefined
    end.

(** Modelled from the spec: the MACD of IndicatorEngine, missing from the
    sources, in the 12/26/9 convention. *)
Definition macd_line (xs : list Q) : list Q :=
  List.map (fun '(f, s) => f - s) (combine (ema_series 12 xs) (ema_series 26 xs)).

Definition macd (xs : list Q) : Value :=
  let line := macd_line xs in
  let l := List.last line 0 in
  let sg := List.last (smooth (2 / (9 + 1)) line) 0 in
  Macd l sg (l - sg).

Definition variance (l : list Q) : Q :=
  let m := mean l in
  mean (List.map (fun x => (x - m) * (x - m)) l).

(** Modelled from the spec: the Bollinger bands of IndicatorEngine,
    missing from the sources: SMA plus and minus [k * stdev] over
    [period] closes. *)
Definition bollinger (n : positive) (k : Q) (xs : list Q) : Value :=
  let window := last_n (Pos.to_nat n) xs in
  Band (mean window) (k * k * variance window).

(** True ranges: the first point has no previous close. *)
Fixpoint true_ranges_from (prev_close : Q) (ps : list PricePoint) : list Q :=
  match ps with
  | [] => []
  | p :: rest =>
      Qmax (high p - low p)
        (Qmax (Qabs (high p - prev_close)) (Qabs (low p - prev_close)))
      :: true_ranges_from (close p) rest
  end.

Definition true_ranges (ps : list PricePoint) : list Q :=
  match ps with
  | [] => []
  | p :: rest => (high p - low p) :: true_ranges_from (close p) rest
  end.

Definition atr (n : positive) (ps : list PricePoint) : Q :=
  wilder n (true_ranges ps).

(** One indicator over a series: a function of the series alone. *)
Definition evaluate (i : Indicator) (s : PriceSeries) : Value :=
  match i with
  | SMA n => Scalar (sma n (closes s))
  | EMA n => Scalar (ema n (closes s))
  | RSI n => rsi n (closes s)
  | MACD => macd (closes s)
  | Bollinger n k => bollinger n k (closes s)
  | ATR n => Scalar (atr n (points s))
  end.

Definition IndicatorSet := list (Indicator * Value).

Inductive Outcome :=
| Computed (values : IndicatorSet)
| Incomplete (lacking : list Indicator).

Definition lacks (s : PriceSeries) (i : Indicator) : bool :=
  (length (points s) <? lookback i)%nat.

(** The longest lookback among the requested indicators. *)
Definition longest_lookback (requested : list Indicator) : nat :=
  fold_right Nat.max 0%nat (List.map lookback requested).

(** Modelled from the spec: IndicatorEngine's
    [compute(series) -> IndicatorSet | Incomplete] (section 4.1), missing
    from the sources.  When some requested indicator lacks data the whole
    set is [Incomplete] and names the indicators that lack it; otherwise
    every requested indicator is evaluated, in order. *)
Definition compute (requested : list Indicator) (s : PriceSeries) : Outcome :=
  match List.filter (lacks s) requested with
  | [] => Computed (List.map (fun i => (i, evaluate i s)) requested)
  | lacking => Incomplete lacking
  end.

(** The default basket: the defaults of section 4.1 and the 200-period
    average of its example. *)
Definition default_basket : list Indicator :=
  [SMA 200; EMA 20; RSI 14; MACD; Bollinger 20 2; ATR 14].


(** No down move: every close is at least the close before it. *)
Fixpoint never_falls (xs : list Q) : Prop :=
  match xs with
  | x :: ((y :: _) as rest) => x <= y /\ never_falls rest
  | _ => True
  end.

End IndicatorEngine.

(** ** SentimentScorer *)

Module SentimentScorer.
Import Pipeline.
Local Open Scope Q_scope.

(** Modelled from the spec: the SentimentScore of section 3, missing from
    the sources: a scalar with the time it was taken, the no-data tag
    and the staleness flag. *)
Record SentimentScore := {
  value : Q;
  scored_at : Z;
  no_data : bool;
  stale : bool
}.

(** Modelled from the spec: the text source capability of section 4.2,
    missing from the sources.  An item is a piece of text with the
    polarity read off it, if any could be. *)
Record Item := {
  published : Z;
  polarity : option Q
}.

Inductive SourceReply :=
| Items (items : list Item)
| SourceError.

Definition TextSource := string -> Z -> SourceReply.

Inductive ScoringError :=
| FetchFailed
| Unscorable.

Definition clamp (q : Q) : Q := Qmax (-1) (Qmin 1 q).

Fixpoint polarities (items : list Item) : ScoringError + list Q :=
  match items with
  | [] => inr []
  | it :: rest =>
      match polarity it, polarities rest with
      | Some q, inr qs => inr (q :: qs)
      | None, _ => inl Unscorable
      | _, inl e => inl e
      end
  end.

(** The scoring proper, which may fail: [None] stands for no data. *)
Definition try_score (source : TextSource) (symbol : string) (asOf : Z)
    : ScoringError + option Q :=
  match source symbol asOf with
  | SourceError => inl FetchFailed
  | Items [] => inr None
  | Items items =>
      match polarities items with
      | inl e => inl e
      | inr qs => inr (Some (clamp (Qsum qs / inject_Z (Z.of_nat (length qs)))))
      end
  end.

Definition neutral (asOf : Z) (tagged_no_data flagged_stale : bool) : SentimentScore :=
  {| value := 0; scored_at := asOf; no_data := tagged_no_data; stale := flagged_stale |}.

(** Modelled from the spec: SentimentScorer's
    [score(symbol, asOf) -> SentimentScore] (section 4.2), missing from
    the sources.  No data gives the neutral score tagged no-data; an
    error in fetching or scoring gives the neutral score flagged stale. *)
Definition score (source : TextSource) (symbol : string) (asOf : Z) : SentimentScore :=
  match try_score source symbol asOf with
  | inr (Some q) => {| value := q; scored_at := asOf; no_data := false; stale := false |}
  | inr None => neutral asOf true false
  | inl _ => neutral asOf false true
  end.

(** The no-op source: nothing is wired in. *)
Definition no_source : TextSource := fun _ _ => Items [].

Definition in_range (s : SentimentScore) : Prop := -1 <= value s /\ value s <= 1.

End SentimentScorer.

(** ** SignalFuser *)

Module SignalFuser.
Import Pipeline IndicatorEngine SentimentScorer.
Local Open Scope Q_scope.

Inductive SignalType := BUY | SELL | HOLD.

(** Modelled from the spec: the Signal of section 3, missing from the
    sources (the dashboard's [SignalData] is its weaker image). *)
Record Signal := {
  symbol : string;
  signal_type : SignalType;
  confidence : Q;
  contributing_indicators : list Indicator;
  timestamp : Z;
  price_at_signal : Q
}.

(** A directional vote, in [{-1, 0, +1}]. *)
Inductive Vote := Down | Flat | Up.

Definition vote_value (v : Vote) : Q :=
  match v with
  | Down => -1
  | Flat => 0
  | Up => 1
  end.

(** Modelled from the spec: the configuration of SignalFuser (sections
    4.3 and 9), missing from the sources: the rule and the weight per
    indicator, the weight of sentiment, the threshold as a fraction of
    the largest possible weighted sum, and the two discounts on
    confidence. *)
Record Config := {
  rule : Indicator -> Value -> Q -> Vote;
  weight : Indicator -> Q;
  sentiment_weight : Q;
  threshold : Q;
  incomplete_discount : Q;
  stale_discount : Q
}.

Definition config_ok (c : Config) : Prop :=
  (forall i, 0 <= weight c i)
  /\ 0 <= sentiment_weight c
  /\ 0 <= threshold c
  /\ (0 <= incomplete_discount c /\ incomplete_discount c <= 1)
  /\ (0 <= stale_discount c /\ stale_discount c <= 1).

(** The rules the spec documents: RSI under 30 leans to buying and over
    70 to selling; the MACD line over its signal leans to buying; a price
    outside the Bollinger bands leans back towards the middle; a price
    over a moving average leans to buying; ATR has no direction. *)
Definition default_rule (i : Indicator) (v : Value) (price : Q) : Vote :=
  match i, v with
  | RSI _, Scalar x =>
      if Qlt_bool x 30 then Up else if Qlt_bool 70 x then Down else Flat
  | MACD, Macd line signal _ =>
      if Qlt_bool signal line then Up else if Qlt_bool line signal then Down else Flat
  | Bollinger _ _, Band middle half_width_sq =>
      if Qlt_bool half_width_sq ((price - middle) * (price - middle))
      then (if Qlt_bool middle price then Down else Up)
      else Flat
  | (SMA _ | EMA _), Scalar m =>
      if Qlt_bool m price then Up else if Qlt_bool price m then Down else Flat
  | _, _ => Flat
  end.

Definition default_weight (i : Indicator) : Q :=
  match i with
  | RSI _ => 2
  | MACD => 2
  | Bollinger _ _ => 1
  | SMA _ => 1
  | EMA _ => 1
  | ATR _ => 0
  end.

Definition default_config : Config :=
  {| rule := default_rule; weight := default_weight; sentiment_weight := 1;
     threshold := 15 # 100; incomplete_discount := 1 # 2;
     stale_discount := 3 # 4 |}.

(** The values that vote: none when the set is incomplete. *)
Definition contributing (o : Outcome) : IndicatorSet :=
  match o with
  | Computed values => values
  | Incomplete _ => []
  end.

Definition is_incomplete (o : Outcome) : bool :=
  match o with
  | Computed _ => false
  | Incomplete _ => true
  end.

(** The weighted sum of the votes, sentiment voting with its magnitude. *)
Definition combined (c : Config) (values : IndicatorSet) (s : SentimentScore)
    (price : Q) : Q :=
  Qsum (List.map (fun '(i, v) => weight c i * vote_value (rule c i v price)) values)
  + sentiment_weight c * value s.

(** The largest weighted sum these voters could reach. *)
Definition max_combined (c : Config) (values : IndicatorSet) : Q :=
  Qsum (List.map (fun '(i, _) => weight c i) values) + sentiment_weight c.

(** On a threshold the class is HOLD. *)
Definition classify (c : Config) (score bound : Q) : SignalType :=
  if Qlt_bool (threshold c * bound) score then BUY
  else if Qlt_bool score (- (threshold c * bound)) then SELL
  else HOLD.

Definition discount (applies : bool) (factor : Q) : Q :=
  if applies then factor else 1.

Definition confidence_of (c : Config) (score bound : Q) (incomplete stale_score : bool)
    : Q :=
  if Qeq_bool bound 0 then 0
  else 100 * (Qabs score / bound)
       * discount incomplete (incomplete_discount c)
       * discount stale_score (stale_discount c).

(** Modelled from the spec: SignalFuser's
    [fuse(indicators, sentiment, price) -> Signal] (section 4.3), missing
    from the sources, with the timestamp supplied by the caller. *)
Definition fuse (c : Config) (indicators : Outcome) (sentiment : SentimentScore)
    (price : PriceSeries) (now : Z) : Signal :=
  let values := contributing indicators in
  let p := last_close price in
  let score := combined c values sentiment p in
  let bound := max_combined c values in
  {| symbol := ps_symbol price;
     signal_type := classify c score bound;
     confidence := confidence_of c score bound (is_incomplete indicators) (stale sentiment);
     contributing_indicators := List.map fst values;
     timestamp := now;
     price_at_signal := p |}.

End SignalFuser.

(** ** SignalStore *)

Module SignalStore.
Import SignalFuser.

(** Modelled from the spec: the state of SignalStore (section 4.5),
    missing from the sources: the append-only history per symbol, each
    timeline in the order of its appends. *)
Definition timeline (st : gmap string (list Signal)) (sym : string) : list Signal :=
  default [] (st !! sym).

Inductive AppendResult :=
| Appended
| DuplicateTimestamp.

Definition same_instant (s s' : Signal) : bool :=
  (timestamp s' =? timestamp s)%Z.

(** Modelled from the spec: SignalStore's [append(signal)] (section 4.5),
    missing from the sources: it fails with [DuplicateTimestamp] when the
    symbol's timeline already holds a signal of the same timestamp. *)
Definition append (s : Signal) (st : gmap string (list Signal))
    : AppendResult * gmap string (list Signal) :=
  if existsb (same_instant s) (timeline st (symbol s))
  then (DuplicateTimestamp, st)
  else (Appended, <[symbol s := timeline st (symbol s) ++ [s]]> st).

(** Modelled from the spec: SignalStore's
    [latest(symbol) -> Signal | NotFound], missing from the sources. *)
Definition latest (sym : string) (st : gmap string (list Signal)) : option Signal :=
  List.last (List.map Some (timeline st sym)) None.

(** Modelled from the spec: SignalStore's [history(symbol, from, to)],
    missing from the sources. *)
Definition history (sym : string) (from to : Z) (st : gmap string (list Signal))
    : list Signal :=
  List.filter (fun s => (from <=? timestamp s)%Z && (timestamp s <=? to)%Z)
    (timeline st sym).

(** A signal is in the store: it sits in the timeline of its symbol. *)
Definition stored (s : Signal) (st : gmap string (list Signal)) : Prop :=
  In s (timeline st (symbol s)).

End SignalStore.

(** ** Sample pages, series and signals *)

Module Samples.
Import Net Dom CleanScript Pipeline IndicatorEngine.
Local Open Scope Q_scope.

Definition three_days : PriceSeries :=
  {| ps_symbol := "AAPL"; ps_timeframe := "1d";
     points :=
       [ {| timestamp := 1; open := 10; high := 11; low := 9; close := 10; volume := 100 |};
         {| timestamp := 2; open := 10; high := 12; low := 10; close := 11; volume := 100 |};
         {| timestamp := 3; open := 11; high := 13; low := 11; close := 13; volume := 100 |} ] |}.

Import SentimentScorer SignalFuser.

Definition blank_page : World :=
  {| document :=
       {[ "analyze-symbol" :=
            {| el_value := Some (lit "  " ++ [9%N; 160%N]); el_innerHTML := [];
               el_cssText := []; el_color := []; el_display := [];
               el_onclick := None; el_children := [] |} ]};
     effects := [] |}.

Definition bare : Element := createElement.

Definition stock_page : World :=
  {| document :=
       <["market-symbols" := bare]>
         (<["market-symbols-title" := bare]> {[ "symbols-list" := bare ]});
     effects := [] |}.

Definition scanner_page : World :=
  {| document := {[ "scanner-results" := createElement ]}; effects := [] |}.

Definition garbled_feed : TextSource :=
  fun _ _ => Items [ {| published := 5; polarity := Some (1 # 2) |};
                     {| published := 6; polarity := None |} ].

Definition oversold : Outcome :=
  Computed [(RSI 14, Scalar 25); (MACD, Macd 1 (1 # 2) (1 # 2)); (ATR 14, Scalar 3)].

Definition mild_optimism : SentimentScore :=
  {| value := 1 # 2; scored_at := 3; no_data := false; stale := true |}.

Definition first_signal : Signal :=
  {| symbol := "AAPL"; signal_type := BUY; confidence := 60;
     contributing_indicators := []; timestamp := 100; price_at_signal := 10 |}.

Definition second_signal : Signal :=
  {| symbol := "AAPL"; signal_type := SELL; confidence := 40;
     contributing_indicators := []; timestamp := 100; price_at_signal := 11 |}.

End Samples.

(** ** [clean_script.js]: market selection and menus *)

Module MarketPage.
Import Net Dom CleanScript.

(** The inline style of an element of class [market-card], as far as
    [selectMarket] writes it. *)
Record CardStyle := {
  borderColor : jsstring;
  transform : jsstring
}.

(** What [menu.previousElementSibling.querySelector('.menu-arrow')] finds
    for a menu: no previous sibling at all, a sibling without an arrow,
    or the arrow with its text. *)
Inductive ArrowRef :=
| NoSibling
| NoArrow
| Arrow (textContent : jsstring).

(** The page the script runs on: the elements it finds by id and its
    console ([world]), the two globals, the elements of class
    [market-card] in document order, and the arrow of each menu, keyed by
    the menu's id.  Market cards and arrows are taken to be other
    elements than the ones the script looks up by id. *)
Record Page := {
  world : World;
  currentMarket : jsstring;
  currentTimeframe : jsstring;
  marketCards : list CardStyle;
  arrows : gmap string ArrowRef
}.

(** [let currentMarket = 'stocks'; let currentTimeframe = '1h';] *)
Definition load (w : World) (cards : list CardStyle) (arrs : gmap string ArrowRef)
    : Page :=
  {| world := w; currentMarket := lit "stocks"; currentTimeframe := lit "1h";
     marketCards := cards; arrows := arrs |}.

Definition plain : CardStyle :=
  {| borderColor := lit "rgba(255,255,255,0.2)"; transform := lit "scale(1)" |}.

Definition highlighted (info : MarketInfo) : CardStyle :=
  {| borderColor := color info; transform := lit "scale(1.05)" |}.

(** [function selectMarket(market, element)], over any market table.
    [element] is the position of the clicked card among the market cards,
    or [None] for a missing element; a position past the last card stands
    for an element that is no market card. *)
Definition selectMarket_in (table : list (jsstring * MarketInfo))
    (market : jsstring) (element : option nat) (p : Page) : Page * Completion :=
  let w := emit (ConsoleLog [lit "Selecting market:"; market]) (world p) in
  let cards := List.map (fun _ => plain) (marketCards p) in
  let finish (cards : list CardStyle) (wc : World * Completion) :=
    ({| world := fst wc; currentMarket := market;
        currentTimeframe := currentTimeframe p; marketCards := cards;
        arrows := arrows p |}, snd wc) in
  match element with
  | Some i =>
      match property market table with
      | None => finish cards (w, ThrewTypeError)
      | Some info =>
          finish (<[i := highlighted info]> cards) (showMarketSymbols_in table market w)
      end
  | None => finish cards (showMarketSymbols_in table market w)
  end.

Definition selectMarket : jsstring -> option nat -> Page -> Page * Completion :=
  selectMarket_in marketData.

(** [marketData.stocks] *)
Definition no_market : MarketInfo :=
  {| name := []; icon := []; color := []; description := []; categories := [] |}.

Definition stocks_info : MarketInfo :=
  default no_market (property (lit "stocks") marketData).

Definition up_arrow : jsstring := [0x25B2%N].
Definition down_arrow : jsstring := [0x25BC%N].

(** [menu.style.display === 'none' || menu.style.display === ''] *)
Definition collapsed (menu : Element) : bool :=
  bool_decide (el_display menu = lit "none") || bool_decide (el_display menu = []).

(** [function toggleCollapse(menuId)] *)
Definition toggleCollapse (menuId : string) (p : Page) : Page * Completion :=
  match getElementById menuId (world p) with
  | None => (p, ThrewTypeError)
  | Some menu =>
      match default NoSibling (arrows p !! menuId) with
      | NoSibling => (p, ThrewTypeError)
      | arrow =>
          let opening := collapsed menu in
          let menu' := set_display (if opening then lit "block" else lit "none") menu in
          let w := setElement menuId menu' (world p) in
          match arrow with
          | Arrow _ =>
              ({| world := w; currentMarket := currentMarket p;
                  currentTimeframe := currentTimeframe p;
                  marketCards := marketCards p;
                  arrows := <[menuId := Arrow (if opening then up_arrow else down_arrow)]>
                              (arrows p) |}, Returned)
          | _ =>
              ({| world := w; currentMarket := currentMarket p;
                  currentTimeframe := currentTimeframe p;
                  marketCards := marketCards p; arrows := arrows p |}, ThrewTypeError)
          end
      end
  end.

(** [async function createCharts()] and [async function getSummary()] *)
Definition createCharts (w : World) : World * Completion :=
  (emit (Alert (lit "Charts functionality coming soon!"))
     (emit (ConsoleLog [lit "Creating charts..."]) w), Returned).

Definition getSummary (w : World) : World * Completion :=
  (emit (Alert (lit "Market summary functionality coming soon!"))
     (emit (ConsoleLog [lit "Getting market summary..."]) w), Returned).

(** The listener of [DOMContentLoaded]: [document.querySelector] finds the
    first market card, if there is one. *)
Definition onDOMContentLoaded (p : Page) : Page * Completion :=
  let w := emit (ConsoleLog [lit "Trading interface loaded successfully!"]) (world p) in
  let p := {| world := w; currentMarket := currentMarket p;
              currentTimeframe := currentTimeframe p;
              marketCards := marketCards p; arrows := arrows p |} in
  match marketCards p with
  | _ :: _ => selectMarket (lit "stocks") (Some 0%nat) p
  | [] => (p, Returned)
  end.

(** What a rendering call leaves in the three elements. *)
Definition titled (info : MarketInfo) (symbolsTitle : Element) : Element :=
  set_color (color info)
    (set_innerHTML (icon info ++ lit " " ++ name info ++ lit " Categories") symbolsTitle).

Definition listed (info : MarketInfo) (symbolsList : Element) : Element :=
  fold_left (renderCategory info) (categories info) (set_innerHTML [] symbolsList).

(** Two behaviours of the server that differ at most in the time and in
    the status of the reply. *)
Definition same_body (b b' : ServerBehaviour) : Prop :=
  match b, b' with
  | Replies _ _ body, Replies _ _ body' => body = body'
  | Drops _, Drops _ => True
  | Silent, Silent => True
  | _, _ => False
  end.

(** The request fails for the script: the network fails, the body is no
    JSON, or the body is [null]. *)
Definition fails (b : ServerBehaviour) : bool :=
  match b with
  | Drops _ => true
  | Replies _ _ None => true
  | Replies _ _ (Some JNull) => true
  | _ => false
  end.

Definition scan_loading : jsstring :=
  loading (astral 0x1F50D ++ lit " Scanning entire market for trading signals...").

Definition scan_error : jsstring :=
  styled "#f44336" ([0x274C%N] ++ lit " Error scanning market").

Definition signals_loading : jsstring :=
  loading (astral 0x1F4C8 ++ lit " Getting live trading signals...").

Definition signals_error : jsstring :=
  styled "#f44336" ([0x274C%N] ++ lit " Error loading signals").

(** The inner markup of a results element, if the element is there. *)
Definition shown (id : string) (w : World) : option jsstring :=
  option_map el_innerHTML (getElementById id w).

End MarketPage.

(** ** [src/config/api.ts]: the configured base URL *)

Module ApiConfig.

(** [process.env], as far as the configuration reads it. *)
Record Env := {
  NODE_ENV : option jsstring;
  REACT_APP_API_URL : option jsstring
}.

(** [API_CONFIG.development.baseURL] and [API_CONFIG.production.baseURL] *)
Definition development_baseURL : jsstring := lit "http://localhost:8000".

Definition production_baseURL (env : Env) : jsstring :=
  or_else (REACT_APP_API_URL env) (lit "https://your-app-name.onrender.com").

Definition isDevelopment (env : Env) : bool :=
  bool_decide (NODE_ENV env = Some (lit "development")).

(** [config.baseURL], exported as [API_BASE_URL] *)
Definition API_BASE_URL (env : Env) : jsstring :=
  if isDevelopment env then development_baseURL else production_baseURL env.

(** A function of [apiService] under the configuration of [env]. *)
Definition configured (env : Env) (c : ApiService.Call) : ApiService.Request :=
  ApiService.request_of (API_BASE_URL env) c.

End ApiConfig.

(** ** [src/config/api.ts]: the dashboard component *)

Module DashboardView.
Import Dashboard.
Local Open Scope Q_scope.

(** [interface MarketData] *)
Record MarketData := {
  md_symbol : jsstring;
  md_name : jsstring;
  md_price : Q;
  md_change_pct : Q;
  md_trend : jsstring
}.

Definition mockMarketData : list MarketData :=
  [ {| md_symbol := lit "SPY"; md_name := lit "S&P 500"; md_price := 45678 # 100;
       md_change_pct := 85 # 100; md_trend := lit "UP" |};
    {| md_symbol := lit "QQQ"; md_name := lit "NASDAQ 100"; md_price := 38945 # 100;
       md_change_pct := - (32 # 100); md_trend := lit "DOWN" |};
    {| md_symbol := lit "IWM"; md_name := lit "Russell 2000"; md_price := 18923 # 100;
       md_change_pct := 145 # 100; md_trend := lit "UP" |};
    {| md_symbol := lit "DIA"; md_name := lit "Dow Jones"; md_price := 3456789 # 100;
       md_change_pct := 67 # 100; md_trend := lit "UP" |} ].

(** The icon of the trend chip:
    [market.trend === 'UP' ? <TrendingUp /> : <TrendingDown />] *)
Inductive Icon := TrendingUp | TrendingDown.

Definition trendIcon (trend : jsstring) : Icon :=
  if decide (trend = lit "UP") then TrendingUp else TrendingDown.

(** The colour and the sign of the change line. *)
Inductive TextColor := success_main | error_main.

Definition changeColor (change_pct : Q) : TextColor :=
  if Qle_bool 0 change_pct then success_main else error_main.

Definition changeSign (change_pct : Q) : jsstring :=
  if Qle_bool 0 change_pct then lit "+" else [].

(** The two callbacks that the component hands to [setTimeout], each with
    a delay of 1000 ms: the one of the mount effect and the one of
    [handleRefresh]. *)
Inductive Timer := LoadMockData | FinishRefresh.

(** The state of the component and the timers that have not fired yet,
    oldest first (all delays are equal, so they fire in this order). *)
Record State := {
  marketData : list MarketData;
  signals : list SignalData;
  loading : bool;
  lastUpdate : Z;
  timers : list Timer
}.

(** The component after its first render and its mount effect, at time
    [now]. *)
Definition mount (now : Z) : State :=
  {| marketData := []; signals := []; loading := true; lastUpdate := now;
     timers := [LoadMockData] |}.

(** The body of a timer's callback, run at time [now]. *)
Definition fire (t : Timer) (now : Z) (st : State) : State :=
  match t with
  | LoadMockData =>
      {| marketData := mockMarketData; signals := mockSignals; loading := false;
         lastUpdate := lastUpdate st; timers := timers st |}
  | FinishRefresh =>
      {| marketData := marketData st; signals := signals st; loading := false;
         lastUpdate := now; timers := timers st |}
  end.

(** [const handleRefresh] *)
Definition handleRefresh (st : State) : State :=
  {| marketData := marketData st; signals := signals st; loading := true;
     lastUpdate := lastUpdate st; timers := timers st ++ [FinishRefresh] |}.

(** What can happen to the mounted component: the oldest timer fires, or
    the user clicks "Refresh Data".  While [loading] holds the component
    renders the progress bar alone, so there is no button to click. *)
Inductive Event :=
| TimerFires (now : Z)
| ClickRefresh.

Definition step (st : State) (ev : Event) : State :=
  match ev with
  | TimerFires now =>
      match timers st with
      | [] => st
      | t :: rest =>
          fire t now {| marketData := marketData st; signals := signals st;
                        loading := loading st; lastUpdate := lastUpdate st;
                        timers := rest |}
      end
  | ClickRefresh => if loading st then st else handleRefresh st
  end.

Definition run (events : list Event) (st : State) : State :=
  fold_left step events st.

(** What the component can be: loading its first data, at rest with the
    mock tables, or refreshing with the mock tables still in place. *)
Definition settled (st : State) : Prop :=
  (timers st = [LoadMockData] /\ loading st = true
   /\ marketData st = [] /\ signals st = [])
  \/ (timers st = [] /\ loading st = false
      /\ marketData st = mockMarketData /\ signals st = mockSignals)
  \/ (timers st = [FinishRefresh] /\ loading st = true
      /\ marketData st = mockMarketData /\ signals st = mockSignals).

End DashboardView.

(** ** [src/App.tsx]: the navigation shell *)

Module AppShell.

(** An entry of [menuItems] (the icon is left out). *)
Record MenuItem := {
  text : jsstring;
  path : jsstring
}.

Definition menuItems : list MenuItem :=
  [ {| text := lit "Dashboard"; path := lit "/" |};
    {| text := lit "Market Scanner"; path := lit "/scanner" |};
    {| text := lit "Trading Signals"; path := lit "/signals" |};
    {| text := lit "Technical Analysis"; path := lit "/analysis" |};
    {| text := lit "Sentiment Analysis"; path := lit "/sentiment" |};
    {| text := lit "Portfolio"; path := lit "/portfolio" |} ].

(** The shell's state: the drawer, the current location and the result
    of the media query. *)
Record Shell := {
  open : bool;
  pathname : jsstring;
  isMobile : bool
}.

(** [const isActiveRoute] *)
Definition isActiveRoute (s : Shell) (p : jsstring) : bool :=
  bool_decide (pathname s = p).

(** [menuItems.find(item => item.path === location.pathname)?.text || 'Dashboard'] *)
Definition title (s : Shell) : jsstring :=
  or_else (option_map text
             (List.find (fun item => bool_decide (path item = pathname s)) menuItems))
    (lit "Dashboard").

(** The entries that the drawer paints as active. *)
Definition active (s : Shell) : list MenuItem :=
  List.filter (fun item => isActiveRoute s (path item)) menuItems.

(** [const handleDrawerToggle] *)
Definition handleDrawerToggle (s : Shell) : Shell :=
  {| open := negb (open s); pathname := pathname s; isMobile := isMobile s |}.

(** [const handleNavigation], for the absolute paths of the menu:
    [navigate(path)] makes [path] the location. *)
Definition handleNavigation (p : jsstring) (s : Shell) : Shell :=
  {| open := if isMobile s then false else open s; pathname := p;
     isMobile := isMobile s |}.

(** The effect of [App] on [isMobile]: it runs after the first render and
    whenever the media query changes its answer. *)
Definition onViewport (mobile : bool) (s : Shell) : Shell :=
  {| open := if mobile then open s else true; pathname := pathname s;
     isMobile := mobile |}.

End AppShell.

(** ** The launch scripts *)

Module Scripts.

(** What a script does that can be seen from outside: the lines it
    prints and the commands it starts (tests such as [command -v] and
    [[ -d ... ]] leave no trace). *)
Inductive Step :=
| Echo (line : string)
| Run (command : string)
| Sleep (seconds : nat).

(** What [start_frontend.sh] finds: whether [node] and [npm] are on the
    path, whether [node_modules] exists, and the exit statuses that
    [npm install] and [npm start] would give. *)
Record Frontend := {
  node : bool;
  npm : bool;
  node_modules : bool;
  npm_install : N;
  npm_start : N
}.

(** [start_frontend.sh]: the steps and the exit status. *)
Definition start_frontend (e : Frontend) : list Step * N :=
  let banner := [Echo "🚀 Starting Trading Signals Frontend..."; Echo ""] in
  let start :=
    [Echo "🔥 Starting React development server...";
     Echo "🌐 Frontend will be available at: http://localhost:3000";
     Echo ""; Run "npm start"] in
  if negb (node e) then
    (banner ++ [Echo "❌ Node.js is not installed. Please install Node.js first."], 1%N)
  else if negb (npm e) then
    (banner ++ [Echo "❌ npm is not installed. Please install npm first."], 1%N)
  else if negb (node_modules e) then
    let install := [Echo "📦 Installing dependencies..."; Run "npm install"] in
    if negb (npm_install e =? 0)%N then
      (banner ++ install ++ [Echo "❌ Error installing dependencies."], 1%N)
    else (banner ++ install ++ start, npm_start e)
  else (banner ++ start, npm_start e).

(** What [deploy.sh] finds: whether [docker] and [docker-compose] are on
    the path, the exit statuses of the build and of the start, and
    whether [curl -f http://localhost:8000] succeeds after the wait. *)
Record Deployment := {
  docker : bool;
  docker_compose : bool;
  build : N;
  up : N;
  answers : bool
}.

(** [deploy.sh]: the steps and the exit status. *)
Definition deploy (e : Deployment) : list Step * N :=
  let banner := [Echo "🚀 Deploying AI Trading Signal Generator..."] in
  if negb (docker e) then
    (banner ++ [Echo "❌ Docker is not installed. Please install Docker first."], 1%N)
  else if negb (docker_compose e) then
    (banner
     ++ [Echo "❌ Docker Compose is not installed. Please install Docker Compose first."],
     1%N)
  else
    let launch :=
      [Echo "📦 Building Docker image..."; Run "docker-compose build";
       Echo "🚀 Starting services..."; Run "docker-compose up -d";
       Echo "⏳ Waiting for application to start..."; Sleep 10] in
    if answers e then
      (banner ++ launch
       ++ [Echo "✅ Application is running successfully!";
           Echo "🌐 Access your trading dashboard at: http://localhost:8000";
           Echo "📚 API documentation at: http://localhost:8000/docs";
           Echo ""; Echo "📋 Useful commands:";
           Echo "  View logs: docker-compose logs -f";
           Echo "  Stop app: docker-compose down";
           Echo "  Restart: docker-compose restart"], 0%N)
    else
      (banner ++ launch
       ++ [Echo "❌ Application failed to start. Check logs with: docker-compose logs"],
       1%N).

End Scripts.

(** ** More sample pages *)

Module MoreSamples.
Import Net Dom CleanScript MarketPage Samples.

Definition crypto_info : MarketInfo :=
  default no_market (property (lit "crypto") marketData).

Definition market_page : Page :=
  load stock_page [plain; highlighted crypto_info; plain] ∅.

Definition unset_production : ApiConfig.Env :=
  {| ApiConfig.NODE_ENV := Some (lit "production");
     ApiConfig.REACT_APP_API_URL := Some [] |}.

Definition phone_on_signals : AppShell.Shell :=
  {| AppShell.open := true; AppShell.pathname := lit "/signals";
     AppShell.isMobile := true |}.

Definition hollow_menu_page : Page :=
  load {| document := {[ "tools-menu" := createElement ]}; effects := [] |} []
       {[ "tools-menu" := NoArrow ]}.

Definition menu_page : Page :=
  load {| document := {[ "tools-menu" := createElement ]}; effects := [] |} []
       {[ "tools-menu" := Arrow down_arrow ]}.

End MoreSamples.

(** ** Properties of the dashboard helpers *)

Module DashboardFacts.
Import Dashboard.

Example getSignalColor_mock :
  List.map (fun s => getSignalColor (sd_signal_type s)) mockSignals
  = [success; error; warning; success].
Proof. reflexivity. Qed.

Example getSignalColor_lowercase : getSignalColor (lit "buy") = default.
Proof. reflexivity. Qed.

(** C10: [getSignalColor] is defined on every string; it answers
    [success] on 'BUY', [error] on 'SELL', [warning] on 'HOLD' and
    [default] on every other string, so a [signal_type] outside
    BUY / SELL / HOLD is accepted and coloured [default]. *)
Theorem getSignalColor_total_table :
  getSignalColor (lit "BUY") = success
  /\ getSignalColor (lit "SELL") = error
  /\ getSignalColor (lit "HOLD") = warning
  /\ (forall s : jsstring,
        s <> lit "BUY" -> s <> lit "SELL" -> s <> lit "HOLD" ->
        getSignalColor s = default)
  /\ (forall s : jsstring,
        getSignalColor s = success \/ getSignalColor s = error
        \/ getSignalColor s = warning \/ getSignalColor s = default)
  /\ (forall s : jsstring,
        (getSignalColor s = success <-> s = lit "BUY")
        /\ (getSignalColor s = error <-> s = lit "SELL")
        /\ (getSignalColor s = warning <-> s = lit "HOLD")).
Proof.
  repeat split; try reflexivity.
  - intros s Hb Hs Hh. unfold getSignalColor.
    repeat case_decide; congruence.
  - intros s. destruct (getSignalColor s); auto.
  - unfold getSignalColor. repeat case_decide; congruence.
  - intros ->. reflexivity.
  - unfold getSignalColor. repeat case_decide; congruence.
  - intros ->. reflexivity.
  - unfold getSignalColor. repeat case_decide; congruence.
  - intros ->. reflexivity.
Qed.

Lemma getSignalColor_total_table_witness :
  (lit "STRONG_BUY" <> lit "BUY" /\ lit "STRONG_BUY" <> lit "SELL"
   /\ lit "STRONG_BUY" <> lit "HOLD")
  /\ getSignalColor (lit "STRONG_BUY") = default.
Proof.
  assert (Hb : lit "STRONG_BUY" <> lit "BUY") by discriminate.
  assert (Hs : lit "STRONG_BUY" <> lit "SELL") by discriminate.
  assert (Hh : lit "STRONG_BUY" <> lit "HOLD") by discriminate.
  split; [auto|].
  destruct getSignalColor_total_table as (_ & _ & _ & Hother & _).
  exact (Hother (lit "STRONG_BUY") Hb Hs Hh).
Defined.

End DashboardFacts.

(** ** Properties of [clean_script.js] *)

Module CleanScriptFacts.
Import Net Dom CleanScript Samples.

Lemma trimStart_white (v : jsstring) :
  whitespace_only v = true -> trimStart v = [].
Proof.
  induction v as [|c v IH]; simpl; [reflexivity|].
  intros H. apply andb_prop in H as [Hc Hv]. rewrite Hc. auto.
Qed.

Lemma trimStart_nil_white (v : jsstring) :
  trimStart v = [] -> whitespace_only v = true.
Proof.
  induction v as [|c v IH]; simpl; [reflexivity|].
  destruct (is_white c); [auto | discriminate].
Qed.

Lemma trimStart_suffix (v : jsstring) :
  exists pre, v = pre ++ trimStart v /\ whitespace_only pre = true.
Proof.
  induction v as [|c v [pre [IH Hpre]]]; simpl.
  - exists []. auto.
  - destruct (is_white c) eqn:Hc.
    + exists (c :: pre). simpl. rewrite Hc, Hpre. split; [congruence | reflexivity].
    + exists []. auto.
Qed.

Lemma trim_blank (v : jsstring) : trim v = [] <-> whitespace_only v = true.
Proof.
  unfold trim, trimEnd. split.
  - intros H.
    assert (Hr : trimStart (rev (trimStart v)) = []).
    { rewrite <- (rev_involutive (trimStart _)). rewrite H. reflexivity. }
    apply trimStart_nil_white in Hr.
    destruct (trimStart_suffix v) as [pre [Hv Hpre]].
    rewrite Hv. unfold whitespace_only in *.
    rewrite forallb_app, Hpre. simpl.
    rewrite forallb_forall in Hr. apply forallb_forall.
    intros x Hx. apply Hr. apply in_rev in Hx. exact Hx.
  - intros H. rewrite (trimStart_white v H). reflexivity.
Qed.

Lemma symbol_of_blank (symbolInput : option Element) :
  blank symbolInput = true ->
  symbol_of symbolInput = None \/ symbol_of symbolInput = Some [].
Proof.
  destruct symbolInput as [e|]; simpl; [|auto].
  destruct (el_value e) as [v|]; simpl; [|auto].
  intros H. right. f_equal. apply trim_blank, H.
Qed.

Lemma symbol_of_filled (symbolInput : option Element) :
  blank symbolInput = false ->
  exists c rest, symbol_of symbolInput = Some (c :: rest).
Proof.
  destruct symbolInput as [e|]; simpl; [|discriminate].
  destruct (el_value e) as [v|]; simpl; [|discriminate].
  intros H. destruct (trim v) as [|c rest] eqn:Ht.
  - apply trim_blank in Ht. congruence.
  - eauto.
Qed.

Example astral_chart : astral 0x1F4CA = [0xD83D%N; 0xDCCA%N].
Proof. reflexivity. Qed.

Example trim_keeps_inner_space :
  trim (lit "  BTC USD " ++ [0x3000%N]) = lit "BTC USD".
Proof. reflexivity. Qed.

(** C8: when the analyzer input is absent, empty or holds only white
    space, [analyzeCustomSymbol] shows the alert and returns: the document,
    and with it the analyzer results element, is untouched and no request
    is sent. *)
Theorem analyzeCustomSymbol_blank_input
    (server : jsstring -> ServerBehaviour) (w : World) :
  blank (getElementById "analyze-symbol" w) = true ->
  analyzeCustomSymbol server w
    = (emit (Alert (lit "Please enter a symbol to analyze")) w, Returned)
  /\ document (fst (analyzeCustomSymbol server w)) = document w
  /\ getElementById "analyzer-results" (fst (analyzeCustomSymbol server w))
     = getElementById "analyzer-results" w
  /\ effects (fst (analyzeCustomSymbol server w))
     = effects w ++ [Alert (lit "Please enter a symbol to analyze")]
  /\ (forall url, In (Fetch url) (effects (fst (analyzeCustomSymbol server w))) ->
                  In (Fetch url) (effects w)).
Proof.
  intros Hb.
  assert (E : analyzeCustomSymbol server w
              = (emit (Alert (lit "Please enter a symbol to analyze")) w, Returned)).
  { unfold analyzeCustomSymbol.
    destruct (symbol_of_blank _ Hb) as [-> | ->]; reflexivity. }
  rewrite E. simpl. repeat split; try reflexivity.
  intros url Hin. apply in_app_or in Hin as [Hin | [Hin | []]]; [exact Hin | discriminate].
Qed.

Lemma analyzeCustomSymbol_blank_input_witness :
  blank (getElementById "analyze-symbol" blank_page) = true
  /\ analyzeCustomSymbol (fun _ => Silent) blank_page
     = (emit (Alert (lit "Please enter a symbol to analyze")) blank_page, Returned).
Proof.
  split; [reflexivity |].
  apply (analyzeCustomSymbol_blank_input (fun _ => Silent) blank_page).
  reflexivity.
Defined.

Lemma show_keeps_effects id d h (w : World) (e : Effect) :
  In e (effects w) -> In e (effects (show id d h w)).
Proof. intros He. unfold show. destruct d; simpl; exact He. Qed.

Lemma emit_keeps_effects (x e : Effect) (w : World) :
  In e (effects w) -> In e (effects (emit x w)).
Proof. intros He. simpl. apply in_or_app. left. exact He. Qed.

Lemma fetch_then_fetches server url div onData onError (w : World) :
  (forall a b w0 e, In e (effects w0) -> In e (effects (onData a b w0))) ->
  (forall w0 e, In e (effects w0) -> In e (effects (onError w0))) ->
  In (Fetch url) (effects (fst (fetch_then server url div onData onError w))).
Proof.
  intros Hd He. unfold fetch_then.
  assert (Hin : In (Fetch url) (effects (emit (Fetch url) w))).
  { simpl. apply in_or_app. right. left. reflexivity. }
  destruct (window_fetch _) as [t r | t e |]; simpl fst; auto.
  destruct (res_body r) as [[|len msg]|]; simpl fst; auto.
  destruct div; simpl fst; auto.
Qed.

(** With anything else in the input the request is sent. *)
Lemma analyzeCustomSymbol_filled_fetches
    (server : jsstring -> ServerBehaviour) (w : World) :
  blank (getElementById "analyze-symbol" w) = false ->
  exists url, In (Fetch url) (effects (fst (analyzeCustomSymbol server w))).
Proof.
  intros Hb. destruct (symbol_of_filled _ Hb) as (c & rest & Hs).
  unfold analyzeCustomSymbol. rewrite Hs.
  exists (lit "/api/analyze/" ++ c :: rest).
  apply fetch_then_fetches.
  - intros a b w0 e He. apply show_keeps_effects, He.
  - intros w0 e He. apply show_keeps_effects, emit_keeps_effects, He.
Qed.

(** *** [showMarketSymbols] *)

Lemma appendChild_fold {A} (f : A -> Element) (xs : list A) (e : Element) :
  el_children (fold_left (fun g x => appendChild (f x) g) xs e)
  = el_children e ++ List.map f xs.
Proof.
  revert e. induction xs as [|x xs IH]; intros e; simpl.
  - rewrite app_nil_r. reflexivity.
  - rewrite IH. simpl. rewrite <- app_assoc. reflexivity.
Qed.

Lemma categoryGrid_children info categoryName (symbols : list jsstring) :
  el_children (categoryGrid info categoryName symbols)
  = List.map (symbolCard info categoryName) (firstn 8 symbols).
Proof. unfold categoryGrid, slice0. rewrite appendChild_fold. reflexivity. Qed.

Lemma categoryGrid_cards info categoryName (symbols : list jsstring) :
  length (el_children (categoryGrid info categoryName symbols))
  = Nat.min 8 (length symbols).
Proof. rewrite categoryGrid_children, length_map, length_firstn. reflexivity. Qed.

Lemma renderCategory_fold info (cats : list (jsstring * list jsstring)) (e : Element) :
  el_children (fold_left (renderCategory info) cats e)
  = el_children e ++ flat_map (rendered info) cats.
Proof.
  revert e. induction cats as [|[cn symbols] cats IH]; intros e; simpl.
  - rewrite app_nil_r. reflexivity.
  - rewrite IH. simpl. rewrite <- !app_assoc. reflexivity.
Qed.

Lemma showMarketSymbols_list table market info (w : World) :
  page_ready w ->
  property market table = Some info ->
  exists symbolsList,
    getElementById "symbols-list" (fst (showMarketSymbols_in table market w))
    = Some symbolsList
    /\ el_children symbolsList = flat_map (rendered info) (categories info)
    /\ snd (showMarketSymbols_in table market w) = Returned.
Proof.
  intros ([c Hc] & [t Ht] & [l Hl]) Hm.
  unfold showMarketSymbols_in, getElementById in *. simpl in *.
  rewrite Hc, Ht, Hl, Hm. simpl.
  eexists. split.
  - rewrite lookup_insert_ne by discriminate. apply lookup_insert_eq.
  - split; [|reflexivity]. rewrite renderCategory_fold. reflexivity.
Qed.

(** C9: once [showMarketSymbols] has rendered a market, the symbols list
    holds, category by category, a header and a grid; the grid of a
    category holds one card for each of the first eight symbols of the
    category and nothing else, so at most eight cards however long the
    category's list is; nothing attached to the symbols list has more
    than eight children. *)
Theorem showMarketSymbols_at_most_eight_cards
    (table : list (jsstring * MarketInfo)) (market : jsstring) (info : MarketInfo)
    (w : World) :
  page_ready w ->
  property market table = Some info ->
  exists symbolsList,
    getElementById "symbols-list" (fst (showMarketSymbols_in table market w))
    = Some symbolsList
    /\ el_children symbolsList = flat_map (rendered info) (categories info)
    /\ Forall (fun e => length (el_children e) <= 8) (el_children symbolsList)
    /\ (forall categoryName symbols,
          In (categoryName, symbols) (categories info) ->
          In (categoryGrid info categoryName symbols) (el_children symbolsList)
          /\ el_children (categoryGrid info categoryName symbols)
             = List.map (symbolCard info categoryName) (slice0 8 symbols)
          /\ length (el_children (categoryGrid info categoryName symbols))
             = Nat.min 8 (length symbols)
          /\ length (el_children (categoryGrid info categoryName symbols)) <= 8).
Proof.
  intros Hp Hm.
  destruct (showMarketSymbols_list table market info w Hp Hm) as (l & Hl & Hc & _).
  exists l. split; [exact Hl|]. split; [exact Hc|]. rewrite Hc. split.
  - apply List.Forall_forall. intros e He.
    apply in_flat_map in He as ([cn symbols] & _ & He).
    destruct He as [<- | [<- | []]].
    + simpl. lia.
    + simpl fst; simpl snd. rewrite categoryGrid_cards. lia.
  - intros cn symbols Hin. split.
    + apply in_flat_map. exists (cn, symbols). split; [exact Hin|].
      right. left. reflexivity.
    + split; [apply categoryGrid_children|].
      rewrite categoryGrid_cards. split; [reflexivity | lia].
Qed.

Lemma showMarketSymbols_at_most_eight_cards_witness :
  exists symbolsList,
    getElementById "symbols-list" (fst (showMarketSymbols (lit "stocks") stock_page))
    = Some symbolsList
    /\ length (el_children symbolsList) = 6
    /\ Forall (fun e => length (el_children e) <= 8) (el_children symbolsList).
Proof.
  assert (Hp : page_ready stock_page).
  { repeat split; eexists; reflexivity. }
  assert (Hm : property (lit "stocks") marketData
               = Some (snd (List.hd (lit "", {| name := []; icon := []; color := [];
                                                 description := []; categories := [] |})
                              marketData))).
  { reflexivity. }
  destruct (showMarketSymbols_at_most_eight_cards marketData (lit "stocks") _ stock_page
              Hp Hm) as (l & Hl & Hc & Hf & _).
  exists l. split; [exact Hl|]. split; [|exact Hf].
  rewrite Hc. reflexivity.
Defined.

Example nasdaq_has_twelve_symbols_and_eight_cards :
  exists info symbols,
    property (lit "stocks") marketData = Some info
    /\ property (lit "NASDAQ") (categories info) = Some symbols
    /\ length symbols = 12
    /\ List.map el_onclick (el_children (categoryGrid info (lit "NASDAQ") symbols))
       = List.map (fun s => Some (lit s))
           ["AAPL"; "GOOGL"; "MSFT"; "AMZN"; "TSLA"; "META"; "NVDA"; "NFLX"]%string.
Proof. do 2 eexists. repeat split. Qed.

(** Without one of the three elements nothing is rendered. *)
Lemma showMarketSymbols_missing_elements table market (w : World) :
  ~ page_ready w ->
  showMarketSymbols_in table market w
  = (emit (ConsoleLog [lit "Missing elements"])
       (emit (ConsoleLog [lit "Showing symbols for market:"; market]) w), Returned)
  /\ document (fst (showMarketSymbols_in table market w)) = document w.
Proof.
  intros Hn. unfold showMarketSymbols_in, page_ready, getElementById in *. simpl in *.
  destruct (document w !! "market-symbols") as [c|];
    destruct (document w !! "market-symbols-title") as [t|];
    destruct (document w !! "symbols-list") as [l|];
    try (split; reflexivity).
  exfalso. apply Hn. repeat split; eexists; reflexivity.
Qed.

(** An unknown market with the page in place: [marketInfo] is undefined and
    reading its [categories] throws before anything is rendered. *)
Lemma showMarketSymbols_unknown_market table market (w : World) :
  page_ready w ->
  property market table = None ->
  showMarketSymbols_in table market w
  = (emit (ConsoleLog [lit "Showing symbols for market:"; market]) w, ThrewTypeError).
Proof.
  intros ([c Hc] & [t Ht] & [l Hl]) Hm.
  unfold showMarketSymbols_in, getElementById in *. simpl in *.
  rewrite Hc, Ht, Hl, Hm. reflexivity.
Qed.

End CleanScriptFacts.

(** ** Timeouts of the requests the front end sends *)

Module TimeoutFacts.
Import Net Dom Samples.

Lemma send_settles (cfg : ApiService.InstanceConfig) (r : ApiService.Request)
    (b : ServerBehaviour) :
  (0 < ApiService.effective_timeout cfg r)%N ->
  settled_by (ApiService.effective_timeout cfg r) (ApiService.send cfg r b).
Proof.
  intros Hpos. unfold ApiService.send.
  apply N.ltb_lt in Hpos as Hp. rewrite Hp. simpl.
  destruct b as [t status body | t |]; simpl.
  - destruct (N.ltb_spec (ApiService.effective_timeout cfg r) t); simpl; [lia|].
    destruct (ApiService.validateStatus status); simpl; lia.
  - destruct (N.ltb_spec (ApiService.effective_timeout cfg r) t); simpl; lia.
  - lia.
Qed.

Lemma send_expired (cfg : ApiService.InstanceConfig) (r : ApiService.Request)
    (b : ServerBehaviour) :
  (0 < ApiService.effective_timeout cfg r)%N ->
  ApiService.exceeds (ApiService.effective_timeout cfg r) b ->
  ApiService.send cfg r b
  = Rejected (ApiService.effective_timeout cfg r) ECONNABORTED.
Proof.
  intros Hpos Hex. unfold ApiService.send.
  apply N.ltb_lt in Hpos as Hp. rewrite Hp. simpl.
  destruct b as [t status body | t |]; simpl in *; try reflexivity;
    apply N.ltb_lt in Hex; rewrite Hex; reflexivity.
Qed.

Lemma request_of_timeout (baseURL : jsstring) (c : ApiService.Call) :
  ApiService.effective_timeout ApiService.api (ApiService.request_of baseURL c) = 10000%N.
Proof. destruct c; reflexivity. Qed.

(** C7, as the code has it: every function of [apiService] sends its
    request under the instance's timeout of 10000 ms.  Whatever the server
    does, the promise is settled within that time; a request that exceeds
    the timeout is rejected (with [ECONNABORTED]), and so is a request
    that fails on the network. *)
Theorem apiService_requests_time_out
    (baseURL : jsstring) (c : ApiService.Call) (b : ServerBehaviour) :
  ApiService.effective_timeout ApiService.api (ApiService.request_of baseURL c)
  = 10000%N
  /\ settled_by 10000 (ApiService.apiService baseURL c b)
  /\ (ApiService.exceeds 10000 b ->
      ApiService.apiService baseURL c b = Rejected 10000 ECONNABORTED)
  /\ (forall t, b = Drops t ->
      is_rejected (ApiService.apiService baseURL c b) = true)
  /\ (ApiService.exceeds 10000 b ->
      is_rejected (ApiService.apiService baseURL c b)
      = is_rejected (ApiService.apiService baseURL c (Drops 0))).
Proof.
  pose proof (request_of_timeout baseURL c) as Ht.
  assert (Hpos : (0 < ApiService.effective_timeout ApiService.api
                        (ApiService.request_of baseURL c))%N) by (rewrite Ht; lia).
  split; [exact Ht|]. unfold ApiService.apiService. split; [|split; [|split]].
  - rewrite <- Ht. apply send_settles, Hpos.
  - intros Hex. rewrite send_expired;
      [rewrite Ht; reflexivity | exact Hpos | rewrite Ht; exact Hex].
  - intros t ->. unfold ApiService.send.
    destruct (_ && _)%bool; reflexivity.
  - intros Hex. rewrite (send_expired _ _ b Hpos) by (rewrite Ht; exact Hex).
    unfold ApiService.send. rewrite Ht. reflexivity.
Qed.

Lemma apiService_requests_time_out_witness :
  ApiService.exceeds 10000 Silent
  /\ ApiService.apiService (lit "http://localhost:8000")
       (ApiService.getPriceHistory (lit "AAPL") None) Silent
     = Rejected 10000 ECONNABORTED.
Proof.
  split; [exact I|].
  apply (apiService_requests_time_out (lit "http://localhost:8000")
           (ApiService.getPriceHistory (lit "AAPL") None) Silent).
  exact I.
Defined.

Example slow_answer_is_cut_off :
  ApiService.apiService (lit "http://localhost:8000") ApiService.scanMarkets
    (Replies 10001 200 (Some (JObj None None)))
  = Rejected 10000 ECONNABORTED.
Proof. reflexivity. Qed.

Example answer_in_time_is_delivered :
  ApiService.apiService (lit "http://localhost:8000") ApiService.scanMarkets
    (Replies 10000 200 (Some (JObj None None)))
  = Fulfilled 10000 {| res_status := 200; res_body := Some (JObj None None) |}.
Proof. reflexivity. Qed.

(** Where claim C7 fails as stated: the requests of [clean_script.js] go
    through [fetch] without a signal, so no time bounds them.  With a
    server that never answers, [scanFullMarket] sends its request and
    stays at the [await]: the catch block does not run and the page keeps
    the loading notice. *)
Lemma scanFullMarket_has_no_timeout :
  snd (CleanScript.scanFullMarket (fun _ => Silent) scanner_page) = AwaitsForever
  /\ In (Fetch (lit "/api/scan/full-market"))
        (effects (fst (CleanScript.scanFullMarket (fun _ => Silent) scanner_page)))
  /\ (forall e, ~ In (ConsoleError e)
        (effects (fst (CleanScript.scanFullMarket (fun _ => Silent) scanner_page))))
  /\ option_map el_innerHTML
       (getElementById "scanner-results"
          (fst (CleanScript.scanFullMarket (fun _ => Silent) scanner_page)))
     = Some (CleanScript.loading
               (CleanScript.astral 0x1F50D
                ++ lit " Scanning entire market for trading signals..."))
  /\ ~ (exists bound : N, forall b, settled_by bound (window_fetch b)).
Proof.
  split; [reflexivity|]. split; [right; left; reflexivity|].
  split.
  - intros e [H | [H | []]]; discriminate.
  - split; [reflexivity|]. intros [bound H]. exact (H Silent).
Qed.

End TimeoutFacts.

(** ** Properties of the indicator engine *)

Module IndicatorEngineFacts.
Import Pipeline IndicatorEngine Samples.
Local Open Scope Q_scope.

Lemma longest_lookback_lt (requested : list Indicator) (n : nat) :
  (n < longest_lookback requested)%nat <->
  exists i, In i requested /\ (n < lookback i)%nat.
Proof.
  unfold longest_lookback. induction requested as [|i rest IH]; simpl.
  - split; [lia | intros (i & [] & _)].
  - rewrite Nat.max_lt_iff, IH. split.
    + intros [H | (j & Hj & H)]; [exists i | exists j]; auto.
    + intros (j & [<- | Hj] & H); [left | right; exists j]; auto.
Qed.

Lemma lacks_lt (s : PriceSeries) (i : Indicator) :
  lacks s i = true <-> (length (points s) < lookback i)%nat.
Proof. unfold lacks. apply Nat.ltb_lt. Qed.


(** C3: a series shorter than the longest lookback among the requested
    indicators makes [compute] answer [Incomplete], and the answer names
    exactly the requested indicators whose lookback the series does not
    reach (at least one); no indicator set is returned. *)
Theorem compute_short_series_incomplete
    (requested : list Indicator) (s : PriceSeries) :
  (length (points s) < longest_lookback requested)%nat ->
  exists lacking,
    compute requested s = Incomplete lacking
    /\ lacking <> []
    /\ (forall i, In i lacking <->
                  In i requested /\ (length (points s) < lookback i)%nat)
    /\ (forall values, compute requested s <> Computed values).
Proof.
  intros H. apply longest_lookback_lt in H as (i & Hi & Hlt).
  assert (Hin : In i (List.filter (lacks s) requested)).
  { apply filter_In. split; [exact Hi | apply lacks_lt, Hlt]. }
  unfold compute.
  destruct (List.filter (lacks s) requested) as [|j l] eqn:E; [destruct Hin|].
  exists (j :: l). split; [reflexivity|]. split; [discriminate|]. split.
  - intros k. rewrite <- E, filter_In, lacks_lt. reflexivity.
  - intros values. discriminate.
Qed.

Lemma compute_short_series_incomplete_witness :
  (length (points three_days) < longest_lookback default_basket)%nat
  /\ exists lacking, compute default_basket three_days = Incomplete lacking
                     /\ lacking <> [].
Proof.
  assert (H : (length (points three_days) < longest_lookback default_basket)%nat).
  { vm_compute. lia. }
  split; [exact H|].
  destruct (compute_short_series_incomplete default_basket three_days H)
    as (lacking & Hc & Hne & _).
  exists lacking. split; [exact Hc | exact Hne].
Defined.

Example compute_names_every_lacking_indicator :
  compute [SMA 2; RSI 14; EMA 3; MACD] three_days = Incomplete [RSI 14; MACD].
Proof. reflexivity. Qed.

(** *** RSI *)














Lemma smooth_from_zero (alpha prev : Q) (xs : list Q) :
  prev == 0 -> List.Forall (fun x => x == 0) xs ->
  List.Forall (fun x => x == 0) (smooth_from alpha prev xs).
Proof.
  revert prev. induction xs as [|x xs IH]; intros prev Hp Hxs; simpl; [constructor|].
  inversion Hxs as [|? ? Hx Hrest]; subst.
  assert (Hcur : alpha * x + (1 - alpha) * prev == 0) by (rewrite Hx, Hp; ring).
  constructor; [exact Hcur | apply IH; assumption].
Qed.

Lemma last_zero (l : list Q) : List.Forall (fun x => x == 0) l -> List.last l 0 == 0.
Proof.
  induction l as [|x l IH]; intros H; simpl; [reflexivity|].
  inversion H; subst. destruct l; [assumption | apply IH; assumption].
Qed.

Lemma losses_zero (xs : list Q) :
  never_falls xs -> List.Forall (fun x => x == 0) (List.map loss (changes xs)).
Proof.
  induction xs as [|x [|y rest] IH]; simpl; try constructor.
  - unfold loss. destruct H as [Hxy _].
    apply Q.max_r. lra.
  - apply IH. destruct H as [_ H]. exact H.
Qed.

Lemma never_falls_no_loss (n : positive) (xs : list Q) :
  never_falls xs -> avg_loss n xs == 0.
Proof.
  intros H. unfold avg_loss, wilder. apply last_zero.
  pose proof (losses_zero xs H) as Hz.
  destruct (List.map loss (changes xs)) as [|l ls]; simpl; [constructor|].
  inversion Hz; subst. constructor; [assumption|].
  apply smooth_from_zero; assumption.
Qed.



Example rsi_of_a_falling_series :
  exists x, evaluate (RSI 2)
              {| ps_symbol := "AAPL"; ps_timeframe := "1d";
                 points := rev (points three_days) |} = Scalar x
            /\ x == 0.
Proof. eexists. split; [reflexivity | vm_compute; reflexivity]. Qed.

(** *** Determinism *)



End IndicatorEngineFacts.

(** ** Properties of the sentiment scorer *)

Module SentimentScorerFacts.
Import Pipeline SentimentScorer Samples.
Local Open Scope Q_scope.

Lemma clamp_in_range (q : Q) : -1 <= clamp q /\ clamp q <= 1.
Proof.
  unfold clamp. split.
  - apply Q.le_max_l.
  - apply Q.max_lub; [unfold Qle; simpl; lia | apply Q.le_min_l].
Qed.

Lemma try_score_in_range (source : TextSource) (symbol : string) (asOf : Z) (q : Q) :
  try_score source symbol asOf = inr (Some q) -> -1 <= q /\ q <= 1.
Proof.
  unfold try_score. destruct (source symbol asOf) as [[|it items]|]; try discriminate.
  destruct (polarities (it :: items)) as [e|qs]; [discriminate|].
  intros H. inversion H; subst. apply clamp_in_range.
Qed.

(** C6: [score] answers with a sentiment score in [[-1, 1]] for every
    source, symbol and time.  A source without data for the symbol gives
    the neutral score 0 tagged "no-data"; a failure of the source or of
    the scoring gives the neutral score 0 flagged stale. *)
Theorem score_never_fails (source : TextSource) (symbol : string) (asOf : Z) :
  in_range (score source symbol asOf)
  /\ (source symbol asOf = Items [] ->
      score source symbol asOf = neutral asOf true false)
  /\ (source symbol asOf = SourceError ->
      score source symbol asOf = neutral asOf false true)
  /\ (forall e, try_score source symbol asOf = inl e ->
      score source symbol asOf = neutral asOf false true)
  /\ (forall e, try_score source symbol asOf = inl e ->
      value (score source symbol asOf) = 0
      /\ stale (score source symbol asOf) = true).
Proof.
  unfold score, in_range. repeat split.
  - destruct (try_score source symbol asOf) as [e|[q|]] eqn:E; simpl;
      try (unfold Qle; simpl; lia).
    apply (try_score_in_range _ _ _ _ E).
  - destruct (try_score source symbol asOf) as [e|[q|]] eqn:E; simpl;
      try (unfold Qle; simpl; lia).
    apply (try_score_in_range _ _ _ _ E).
  - intros H. unfold try_score. rewrite H. reflexivity.
  - intros H. unfold try_score. rewrite H. reflexivity.
  - intros e H. rewrite H. reflexivity.
  - rewrite H. reflexivity.
  - rewrite H. reflexivity.
Qed.

Lemma score_never_fails_witness :
  no_source "AAPL"%string 10%Z = Items []
  /\ score no_source "AAPL" 10 = neutral 10 true false
  /\ try_score garbled_feed "AAPL"%string 10%Z = inl Unscorable
  /\ score garbled_feed "AAPL" 10 = neutral 10 false true.
Proof.
  split; [reflexivity|]. split.
  - apply (score_never_fails no_source "AAPL" 10). reflexivity.
  - split; [reflexivity|].
    apply (score_never_fails garbled_feed "AAPL" 10) with (e := Unscorable).
    reflexivity.
Defined.

Example score_is_clamped :
  value (score (fun _ _ => Items [ {| published := 1; polarity := Some 3 |};
                                   {| published := 2; polarity := Some 2 |} ])
           "AAPL" 10) == 1.
Proof. vm_compute. reflexivity. Qed.

End SentimentScorerFacts.

(** ** Properties of the signal fuser *)

Module SignalFuserFacts.
Import Pipeline IndicatorEngine SentimentScorer SignalFuser Samples.
Local Open Scope Q_scope.

Lemma vote_within_weight (w : Q) (v : Vote) :
  0 <= w -> - w <= w * vote_value v /\ w * vote_value v <= w.
Proof. intros Hw. destruct v; simpl; lra. Qed.

Lemma sentiment_within_weight (w x : Q) :
  0 <= w -> -1 <= x -> x <= 1 -> - w <= w * x /\ w * x <= w.
Proof.
  intros Hw Hl Hu. split.
  - assert (0 <= w * (x + 1)) by (apply Qmult_le_0_compat; lra). lra.
  - assert (0 <= w * (1 - x)) by (apply Qmult_le_0_compat; lra). lra.
Qed.

Lemma votes_within_weights (c : Config) (values : IndicatorSet) (price : Q) :
  (forall i, 0 <= weight c i) ->
  let votes := Qsum (List.map (fun '(i, v) => weight c i * vote_value (rule c i v price))
                       values) in
  let weights := Qsum (List.map (fun '(i, _) => weight c i) values) in
  0 <= weights /\ - weights <= votes /\ votes <= weights.
Proof.
  intros Hw. induction values as [|[i v] values IH]; simpl in *; [lra|].
  destruct IH as (H0 & Hl & Hu).
  destruct (vote_within_weight (weight c i) (rule c i v price) (Hw i)).
  pose proof (Hw i). lra.
Qed.

Lemma combined_within_bound (c : Config) (values : IndicatorSet) (s : SentimentScore)
    (price : Q) :
  config_ok c -> in_range s ->
  0 <= max_combined c values
  /\ Qabs (combined c values s price) <= max_combined c values.
Proof.
  intros (Hw & Hs & _) [Hl Hu].
  destruct (votes_within_weights c values price Hw) as (H0 & Hvl & Hvu).
  destruct (sentiment_within_weight _ _ Hs Hl Hu).
  unfold max_combined, combined. split; [lra|].
  apply Qabs_Qle_condition. split; lra.
Qed.

Lemma unit_product (a b : Q) :
  0 <= a -> a <= 1 -> 0 <= b -> b <= 1 -> 0 <= a * b /\ a * b <= 1.
Proof.
  intros Ha0 Ha1 Hb0 Hb1. split; [apply Qmult_le_0_compat; assumption|].
  assert (0 <= (1 - a) * b) by (apply Qmult_le_0_compat; lra). lra.
Qed.

Lemma discount_unit (applies : bool) (f : Q) :
  0 <= f -> f <= 1 -> 0 <= discount applies f /\ discount applies f <= 1.
Proof. intros. destruct applies; simpl; lra. Qed.

Lemma confidence_of_bounds (c : Config) (score bound : Q) (incomplete stale_score : bool) :
  config_ok c -> 0 <= bound -> Qabs score <= bound ->
  0 <= confidence_of c score bound incomplete stale_score
  /\ confidence_of c score bound incomplete stale_score <= 100.
Proof.
  intros (_ & _ & _ & [Hi0 Hi1] & [Hs0 Hs1]) Hb Habs. unfold confidence_of.
  destruct (Qeq_bool bound 0) eqn:E; [lra|].
  assert (Hne : ~ bound == 0).
  { intros H. apply Qeq_bool_iff in H. congruence. }
  assert (Hpos : 0 < bound).
  { apply Qle_lteq in Hb as [H | H]; [exact H | symmetry in H; contradiction]. }
  pose proof (Qabs_nonneg score) as Hs.
  assert (Hr0 : 0 <= Qabs score / bound) by (apply Qle_shift_div_l; [exact Hpos | lra]).
  assert (Hr1 : Qabs score / bound <= 1) by (apply Qle_shift_div_r; [exact Hpos | lra]).
  destruct (discount_unit incomplete _ Hi0 Hi1) as [Hd0 Hd1].
  destruct (discount_unit stale_score _ Hs0 Hs1) as [He0 He1].
  destruct (unit_product _ _ Hr0 Hr1 Hd0 Hd1) as [Hp0 Hp1].
  destruct (unit_product _ _ Hp0 Hp1 He0 He1) as [Hq0 Hq1].
  set (r := Qabs score / bound) in *.
  set (d := discount incomplete (incomplete_discount c)) in *.
  set (e := discount stale_score (stale_discount c)) in *.
  assert (Heq : 100 * r * d * e == 100 * (r * d * e)) by ring.
  rewrite Heq. lra.
Qed.

(** C1: for every indicator set (complete or not) and every sentiment
    score, under a well-formed configuration, the signal that [fuse]
    returns has a confidence between 0 and 100 and a type that is one of
    BUY, SELL and HOLD. *)
Theorem fuse_confidence_and_type
    (c : Config) (indicators : Outcome) (sentiment : SentimentScore)
    (price : PriceSeries) (now : Z) :
  config_ok c -> in_range sentiment ->
  (0 <= confidence (fuse c indicators sentiment price now)
   /\ confidence (fuse c indicators sentiment price now) <= 100)
  /\ (signal_type (fuse c indicators sentiment price now) = BUY
      \/ signal_type (fuse c indicators sentiment price now) = SELL
      \/ signal_type (fuse c indicators sentiment price now) = HOLD).
Proof.
  intros Hc Hs. split.
  - unfold fuse. cbn [confidence].
    destruct (combined_within_bound c (contributing indicators) sentiment
                (last_close price) Hc Hs) as [H0 Habs].
    apply confidence_of_bounds; assumption.
  - destruct (signal_type _); auto.
Qed.

Lemma default_config_ok : config_ok default_config.
Proof.
  unfold config_ok, default_config. cbn.
  repeat split; try (unfold Qle; simpl; lia).
  intros i. destruct i; unfold Qle; simpl; lia.
Qed.

Lemma fuse_confidence_and_type_witness :
  (config_ok default_config /\ in_range mild_optimism)
  /\ (0 <= confidence (fuse default_config oversold mild_optimism
                         three_days 4)
      /\ confidence (fuse default_config oversold mild_optimism
                       three_days 4) <= 100).
Proof.
  assert (Hs : in_range mild_optimism).
  { unfold in_range, Qle. simpl. lia. }
  split; [split; [exact default_config_ok | exact Hs]|].
  apply (fuse_confidence_and_type default_config oversold mild_optimism
           three_days 4 default_config_ok Hs).
Defined.

Example fuse_oversold :
  signal_type (fuse default_config oversold mild_optimism
                 three_days 4) = BUY
  /\ confidence (fuse default_config oversold mild_optimism
                   three_days 4) == 675 # 10.
Proof. split; [reflexivity | vm_compute; reflexivity]. Qed.

(** On the threshold the class is HOLD. *)
Example fuse_on_the_threshold :
  signal_type (fuse default_config (Incomplete [RSI 14])
                 {| value := 15 # 100; scored_at := 3; no_data := false; stale := false |}
                 three_days 4) = HOLD.
Proof. reflexivity. Qed.

End SignalFuserFacts.

(** ** Properties of the signal store *)

Module SignalStoreFacts.
Import SignalFuser SignalStore Samples.

Lemma duplicate_found (s s' : Signal) (st : gmap string (list Signal)) :
  stored s' st -> symbol s' = symbol s -> timestamp s' = timestamp s ->
  existsb (same_instant s) (timeline st (symbol s)) = true.
Proof.
  unfold stored. intros Hin Hsym Hts. rewrite Hsym in Hin.
  apply existsb_exists. exists s'. split; [exact Hin|].
  unfold same_instant. apply Z.eqb_eq, Hts.
Qed.

(** C2: appending a signal whose symbol and timestamp are those of a
    signal already in the store fails with [DuplicateTimestamp] and
    returns the store as it was, so every timeline, every [latest] and
    every [history] is as before. *)
Theorem append_duplicate_rejected
    (s s' : Signal) (st : gmap string (list Signal)) :
  stored s' st -> symbol s' = symbol s -> timestamp s' = timestamp s ->
  append s st = (DuplicateTimestamp, st)
  /\ (forall sym, timeline (snd (append s st)) sym = timeline st sym)
  /\ (forall sym, latest sym (snd (append s st)) = latest sym st)
  /\ (forall sym from to,
        history sym from to (snd (append s st)) = history sym from to st).
Proof.
  intros Hin Hsym Hts.
  assert (E : append s st = (DuplicateTimestamp, st)).
  { unfold append. rewrite (duplicate_found s s' st Hin Hsym Hts). reflexivity. }
  rewrite E. simpl. auto.
Qed.

(** A signal with a new timestamp for its symbol is appended at the end
    of its timeline and the other timelines are untouched. *)
Lemma append_fresh (s : Signal) (st : gmap string (list Signal)) :
  existsb (same_instant s) (timeline st (symbol s)) = false ->
  fst (append s st) = Appended
  /\ timeline (snd (append s st)) (symbol s) = timeline st (symbol s) ++ [s]
  /\ (forall sym, sym <> symbol s ->
        timeline (snd (append s st)) sym = timeline st sym).
Proof.
  intros H. unfold append. rewrite H. simpl. repeat split.
  - unfold timeline at 1. rewrite lookup_insert_eq. reflexivity.
  - intros sym Hne. unfold timeline at 1.
    rewrite lookup_insert_ne by congruence. reflexivity.
Qed.

Lemma append_duplicate_rejected_witness :
  (stored first_signal (snd (append first_signal ∅))
   /\ symbol first_signal = symbol second_signal
   /\ timestamp first_signal = timestamp second_signal)
  /\ append second_signal (snd (append first_signal ∅))
     = (DuplicateTimestamp, snd (append first_signal ∅)).
Proof.
  assert (H : stored first_signal (snd (append first_signal ∅))).
  { left. reflexivity. }
  split; [repeat split; exact H|].
  apply (append_duplicate_rejected second_signal first_signal
           (snd (append first_signal ∅)) H eq_refl eq_refl).
Defined.

End SignalStoreFacts.

(** ** Further properties of [clean_script.js] *)

Module MarketPageFacts.
Import Net Dom CleanScript MarketPage Samples MoreSamples.

Lemma page_ready_elements (w : World) :
  page_ready w <->
  exists c t l,
    document w !! "market-symbols" = Some c
    /\ document w !! "market-symbols-title" = Some t
    /\ document w !! "symbols-list" = Some l.
Proof.
  unfold page_ready, getElementById. split.
  - intros ([c Hc] & [t Ht] & [l Hl]). eauto 7.
  - intros (c & t & l & Hc & Ht & Hl). rewrite Hc, Ht, Hl. eauto.
Qed.

Lemma showMarketSymbols_document table market info c t l (w : World) :
  document w !! "market-symbols" = Some c ->
  document w !! "market-symbols-title" = Some t ->
  document w !! "symbols-list" = Some l ->
  property market table = Some info ->
  document (fst (showMarketSymbols_in table market w))
  = <["market-symbols" := set_display (lit "block") c]>
      (<["symbols-list" := listed info l]>
         (<["market-symbols-title" := titled info t]> (document w)))
  /\ effects (fst (showMarketSymbols_in table market w))
     = effects w ++ [ConsoleLog [lit "Showing symbols for market:"; market]]
  /\ snd (showMarketSymbols_in table market w) = Returned.
Proof.
  intros Hc Ht Hl Hm.
  unfold showMarketSymbols_in, getElementById. simpl.
  rewrite Hc, Ht, Hl, Hm. simpl. auto.
Qed.

Lemma set_innerHTML_twice h h' (e : Element) :
  set_innerHTML h (set_innerHTML h' e) = set_innerHTML h e.
Proof. reflexivity. Qed.

Lemma set_innerHTML_rendered h info (cats : list (jsstring * list jsstring))
    (e : Element) :
  set_innerHTML h (fold_left (renderCategory info) cats e) = set_innerHTML h e.
Proof.
  revert e. induction cats as [|[cn ss] cats IH]; intros e; simpl; [reflexivity|].
  rewrite IH. reflexivity.
Qed.

Lemma listed_again info info' (l : Element) :
  listed info (listed info' l) = listed info l.
Proof. unfold listed. rewrite set_innerHTML_rendered. reflexivity. Qed.

Lemma titled_again info info' (t : Element) :
  titled info (titled info' t) = titled info t.
Proof. reflexivity. Qed.

(** X1: Rendering a market replaces what an earlier call rendered: after
    showing one market and then another, the document is the one that
    showing the second market alone gives. *)
Theorem showMarketSymbols_replaces
    (table : list (jsstring * MarketInfo)) (first second : jsstring)
    (info1 info2 : MarketInfo) (w : World) :
  page_ready w ->
  property first table = Some info1 ->
  property second table = Some info2 ->
  document (fst (showMarketSymbols_in table second
                   (fst (showMarketSymbols_in table first w))))
  = document (fst (showMarketSymbols_in table second w)).
Proof.
  intros Hp H1 H2. apply page_ready_elements in Hp as (c & t & l & Hc & Ht & Hl).
  destruct (showMarketSymbols_document table first info1 c t l w Hc Ht Hl H1)
    as (Hd1 & _ & _).
  destruct (showMarketSymbols_document table second info2 c t l w Hc Ht Hl H2)
    as (Hd2 & _ & _).
  set (w1 := fst (showMarketSymbols_in table first w)) in *.
  assert (Hc1 : document w1 !! "market-symbols" = Some (set_display (lit "block") c)).
  { rewrite Hd1. apply lookup_insert_eq. }
  assert (Hl1 : document w1 !! "symbols-list" = Some (listed info1 l)).
  { rewrite Hd1. rewrite lookup_insert_ne by discriminate. apply lookup_insert_eq. }
  assert (Ht1 : document w1 !! "market-symbols-title" = Some (titled info1 t)).
  { rewrite Hd1. do 2 (rewrite lookup_insert_ne by discriminate).
    apply lookup_insert_eq. }
  destruct (showMarketSymbols_document table second info2 _ _ _ w1 Hc1 Ht1 Hl1 H2)
    as (Hd12 & _ & _).
  rewrite Hd12, Hd2, Hd1, listed_again, titled_again.
  apply map_eq. intros k.
  rewrite !lookup_insert. repeat case_decide; try congruence; reflexivity.
Qed.

Lemma stock_page_ready : page_ready stock_page.
Proof. repeat split; eexists; reflexivity. Qed.

Lemma showMarketSymbols_replaces_witness :
  (page_ready stock_page
   /\ property (lit "stocks") marketData = Some stocks_info
   /\ property (lit "crypto") marketData = Some crypto_info)
  /\ document (fst (showMarketSymbols (lit "crypto")
                      (fst (showMarketSymbols (lit "stocks") stock_page))))
     = document (fst (showMarketSymbols (lit "crypto") stock_page)).
Proof.
  split; [repeat split; eexists; reflexivity|].
  apply (showMarketSymbols_replaces marketData (lit "stocks") (lit "crypto")
           stocks_info crypto_info stock_page);
    [repeat split; eexists; reflexivity | reflexivity | reflexivity].
Defined.

(** X2: A call of [showMarketSymbols] writes to the three elements of the
    symbols panel and to the console, and to nothing else: every other
    element of the document is as before, and no alert and no request
    is added to what the page has seen. *)
Theorem showMarketSymbols_frame
    (table : list (jsstring * MarketInfo)) (market : jsstring) (w : World) :
  (forall id : string,
      id <> "market-symbols" -> id <> "market-symbols-title" -> id <> "symbols-list" ->
      getElementById id (fst (showMarketSymbols_in table market w))
      = getElementById id w)
  /\ exists logs,
       effects (fst (showMarketSymbols_in table market w)) = effects w ++ logs
       /\ Forall (fun e => exists args, e = ConsoleLog args) logs.
Proof.
  unfold showMarketSymbols_in, getElementById. simpl.
  destruct (document w !! "market-symbols") as [c|];
    destruct (document w !! "market-symbols-title") as [t|];
    destruct (document w !! "symbols-list") as [l|];
    try destruct (property market table) as [info|]; simpl.
  1: { split.
       - intros id H1 H2 H3. rewrite !lookup_insert_ne by congruence. reflexivity.
       - eexists. split; [reflexivity|]. repeat constructor; eauto. }
  all: split; [reflexivity|].
  all: rewrite <- ?app_assoc; eexists; split; [reflexivity|];
       repeat constructor; eauto.
Qed.



(** *** [selectMarket] *)

(** X4: Selecting a known market by clicking one of the market cards leaves
    exactly that card highlighted, in the market's colour, and every other
    card plain, whatever the cards looked like before; the market becomes
    the current one. *)
Theorem selectMarket_highlights_the_clicked_card
    (table : list (jsstring * MarketInfo)) (market : jsstring) (info : MarketInfo)
    (i : nat) (p : Page) :
  property market table = Some info ->
  (i < length (marketCards p))%nat ->
  let p' := fst (selectMarket_in table market (Some i) p) in
  currentMarket p' = market
  /\ length (marketCards p') = length (marketCards p)
  /\ marketCards p' !! i = Some (highlighted info)
  /\ (forall j, j <> i -> (j < length (marketCards p))%nat ->
                 marketCards p' !! j = Some plain)
  /\ (forall j card, marketCards p' !! j = Some card ->
                      transform card = lit "scale(1.05)" -> j = i).
Proof.
  intros Hm Hi p'. subst p'. unfold selectMarket_in. rewrite Hm. simpl.
  assert (Hlen : length (List.map (fun _ : CardStyle => plain) (marketCards p))
                 = length (marketCards p)) by apply length_map.
  assert (Hplain : forall j, (j < length (marketCards p))%nat ->
            List.map (fun _ : CardStyle => plain) (marketCards p) !! j = Some plain).
  { intros j Hj. rewrite list_lookup_fmap.
    destruct (lookup_lt_is_Some_2 (marketCards p) j Hj) as [x ->]. reflexivity. }
  split; [reflexivity|]. split; [rewrite length_insert; exact Hlen|].
  split; [apply list_lookup_insert_eq; rewrite Hlen; exact Hi|].
  split.
  - intros j Hne Hj. rewrite list_lookup_insert_ne by congruence. apply Hplain, Hj.
  - intros j card Hc Ht. destruct (decide (j = i)) as [|Hne]; [assumption|].
    rewrite list_lookup_insert_ne in Hc by congruence.
    assert (Hj : (j < length (marketCards p))%nat).
    { apply lookup_lt_Some in Hc. rewrite Hlen in Hc. exact Hc. }
    rewrite (Hplain j Hj) in Hc. inversion Hc; subst. discriminate.
Qed.

Lemma selectMarket_highlights_the_clicked_card_witness :
  (property (lit "stocks") marketData = Some stocks_info
   /\ (2 < length (marketCards market_page))%nat)
  /\ marketCards (fst (selectMarket (lit "stocks") (Some 2%nat) market_page))
     = [plain; plain; highlighted stocks_info].
Proof.
  assert (Hlen : (2 < length (marketCards market_page))%nat) by (simpl; lia).
  split; [split; [reflexivity | exact Hlen]|].
  destruct (selectMarket_highlights_the_clicked_card marketData (lit "stocks")
              stocks_info 2 market_page eq_refl Hlen) as (_ & _ & H2 & _).
  reflexivity.
Defined.



(** *** The page load *)

(** X6: When the page has loaded, the script selects the stocks market
    through the first market card, if the page has one: with the symbols
    panel in place that card is highlighted in the colour of stocks, every
    other card is plain and the panel lists the categories of stocks.
    Without a market card nothing is selected and nothing is rendered. *)
Theorem onDOMContentLoaded_selects_stocks (p : Page) :
  (marketCards p = [] ->
   snd (onDOMContentLoaded p) = Returned
   /\ document (world (fst (onDOMContentLoaded p))) = document (world p)
   /\ currentMarket (fst (onDOMContentLoaded p)) = currentMarket p)
  /\ (marketCards p <> [] -> page_ready (world p) ->
      snd (onDOMContentLoaded p) = Returned
      /\ currentMarket (fst (onDOMContentLoaded p)) = lit "stocks"
      /\ marketCards (fst (onDOMContentLoaded p))
         = highlighted stocks_info :: List.map (fun _ => plain) (List.tl (marketCards p))
      /\ exists symbolsList,
           getElementById "symbols-list" (world (fst (onDOMContentLoaded p)))
           = Some symbolsList
           /\ el_children symbolsList
              = flat_map (rendered stocks_info) (categories stocks_info)).
Proof.
  unfold onDOMContentLoaded. split.
  - intros ->. cbn. auto.
  - intros Hne Hp. cbn [marketCards].
    destruct (marketCards p) as [|card cards] eqn:Hcards; [contradiction|].
    unfold selectMarket, selectMarket_in.
    change (property (lit "stocks") marketData) with (Some stocks_info).
    cbn [world marketCards fst snd currentMarket List.map List.tl].
    set (w := emit _ (emit _ (world p))).
    assert (Hw : page_ready w) by exact Hp.
    destruct (CleanScriptFacts.showMarketSymbols_list marketData (lit "stocks")
                stocks_info w Hw eq_refl) as (l & Hl & Hc & Hr).
    split; [exact Hr|]. split; [reflexivity|]. split; [reflexivity|].
    exists l. split; [exact Hl | exact Hc].
Qed.

Lemma onDOMContentLoaded_selects_stocks_witness :
  (marketCards market_page <> [] /\ page_ready (world market_page))
  /\ marketCards (fst (onDOMContentLoaded market_page))
     = [highlighted stocks_info; plain; plain].
Proof.
  assert (Hne : marketCards market_page <> []) by discriminate.
  assert (Hp : page_ready (world market_page)) by (repeat split; eexists; reflexivity).
  split; [split; [exact Hne | exact Hp]|].
  destruct (onDOMContentLoaded_selects_stocks market_page) as [_ H].
  destruct (H Hne Hp) as (_ & _ & Hc & _). exact Hc.
Defined.

(** *** [toggleCollapse] *)

(** X7: Once [toggleCollapse] has run to its end for a menu, the menu is
    either shown ([block], arrow up) or hidden ([none], arrow down), the
    next call runs to its end as well, and two more calls bring the page
    back to where it is: from then on the menu alternates between the two
    states. *)
Theorem toggleCollapse_alternates (menuId : string) (p : Page) :
  snd (toggleCollapse menuId p) = Returned ->
  let p1 := fst (toggleCollapse menuId p) in
  (exists menu,
      getElementById menuId (world p1) = Some menu
      /\ ((el_display menu = lit "block" /\ arrows p1 !! menuId = Some (Arrow up_arrow))
          \/ (el_display menu = lit "none"
              /\ arrows p1 !! menuId = Some (Arrow down_arrow))))
  /\ snd (toggleCollapse menuId p1) = Returned
  /\ snd (toggleCollapse menuId (fst (toggleCollapse menuId p1))) = Returned
  /\ fst (toggleCollapse menuId (fst (toggleCollapse menuId p1))) = p1.
Proof.
  unfold toggleCollapse at 1 2. unfold getElementById.
  destruct (document (world p) !! menuId) as [menu|] eqn:Hmenu; [|discriminate].
  destruct (arrows p !! menuId) as [[| |txt]|] eqn:Harrow; simpl; try discriminate.
  intros _.
  assert (Hstep : forall (q : Page) (m : Element) (t : jsstring),
            document (world q) !! menuId = Some m ->
            arrows q !! menuId = Some (Arrow t) ->
            toggleCollapse menuId q
            = ({| world := setElement menuId
                             (set_display (if collapsed m then lit "block" else lit "none") m)
                             (world q);
                  currentMarket := currentMarket q;
                  currentTimeframe := currentTimeframe q;
                  marketCards := marketCards q;
                  arrows := <[menuId := Arrow (if collapsed m then up_arrow else down_arrow)]>
                              (arrows q) |}, Returned)).
  { intros q m t Hq Ha. unfold toggleCollapse, getElementById. rewrite Hq, Ha.
    reflexivity. }
  set (p1 := {| world := _; arrows := _ |}).
  set (m1 := set_display (if collapsed menu then lit "block" else lit "none") menu).
  assert (Hm1 : document (world p1) !! menuId = Some m1) by apply lookup_insert_eq.
  assert (Ha1 : arrows p1 !! menuId
                = Some (Arrow (if collapsed menu then up_arrow else down_arrow)))
    by apply lookup_insert_eq.
  rewrite (Hstep p1 m1 _ Hm1 Ha1). simpl.
  set (p2 := {| world := _; arrows := _ |}).
  set (m2 := set_display (if collapsed m1 then lit "block" else lit "none") m1).
  assert (Hm2 : document (world p2) !! menuId = Some m2) by apply lookup_insert_eq.
  assert (Ha2 : arrows p2 !! menuId
                = Some (Arrow (if collapsed m1 then up_arrow else down_arrow)))
    by apply lookup_insert_eq.
  rewrite (Hstep p2 m2 _ Hm2 Ha2). simpl.
  split.
  - exists m1. unfold getElementById. split; [exact Hm1|].
    clear Hstep Hm2 Ha2. subst m1. simpl in Ha1.
    destruct (collapsed menu); [left | right]; (split; [reflexivity | exact Ha1]).
  - split; [reflexivity|]. split; [reflexivity|].
    subst p2 p1. simpl. unfold setElement. simpl.
    rewrite !insert_insert_eq.
    assert (Hback : set_display (if collapsed m2 then lit "block" else lit "none") m2 = m1).
    { subst m2 m1. destruct (collapsed menu); reflexivity. }
    assert (Harr : (if collapsed m2 then up_arrow else down_arrow)
                   = (if collapsed menu then up_arrow else down_arrow)).
    { subst m2 m1. destruct (collapsed menu); reflexivity. }
    rewrite Hback, Harr. reflexivity.
Qed.

Lemma toggleCollapse_alternates_witness :
  snd (toggleCollapse "tools-menu" menu_page) = Returned
  /\ fst (toggleCollapse "tools-menu"
            (fst (toggleCollapse "tools-menu"
                    (fst (toggleCollapse "tools-menu" menu_page)))))
     = fst (toggleCollapse "tools-menu" menu_page).
Proof.
  split; [reflexivity|].
  apply (toggleCollapse_alternates "tools-menu" menu_page). reflexivity.
Defined.

(** X8: A menu whose header has no arrow: the call throws when it writes the
    arrow, after it has flipped the menu; the menu is shown or hidden all
    the same and the arrows are as before. *)
Theorem toggleCollapse_without_arrow (menuId : string) (menu : Element) (p : Page) :
  getElementById menuId (world p) = Some menu ->
  arrows p !! menuId = Some NoArrow ->
  snd (toggleCollapse menuId p) = ThrewTypeError
  /\ arrows (fst (toggleCollapse menuId p)) = arrows p
  /\ exists menu',
       getElementById menuId (world (fst (toggleCollapse menuId p))) = Some menu'
       /\ collapsed menu' = negb (collapsed menu)
       /\ (el_display menu' = lit "block" \/ el_display menu' = lit "none").
Proof.
  intros Hm Ha. unfold toggleCollapse. rewrite Hm, Ha. simpl.
  split; [reflexivity|]. split; [reflexivity|].
  eexists. split; [apply lookup_insert_eq|].
  destruct (collapsed menu); simpl; auto.
Qed.

Lemma toggleCollapse_without_arrow_witness :
  (getElementById "tools-menu" (world hollow_menu_page) = Some createElement
   /\ arrows hollow_menu_page !! "tools-menu" = Some NoArrow)
  /\ snd (toggleCollapse "tools-menu" hollow_menu_page) = ThrewTypeError.
Proof.
  split; [split; reflexivity|].
  apply (toggleCollapse_without_arrow "tools-menu" createElement hollow_menu_page);
    reflexivity.
Defined.

(** A menu that is not in the document, or whose element has no previous
    sibling, makes the call throw before anything is written. *)
Theorem toggleCollapse_missing_menu (menuId : string) (p : Page) :
  getElementById menuId (world p) = None
  \/ arrows p !! menuId = None \/ arrows p !! menuId = Some NoSibling ->
  toggleCollapse menuId p = (p, ThrewTypeError).
Proof.
  unfold toggleCollapse.
  intros [H | H]; [rewrite H; reflexivity|].
  destruct (getElementById menuId (world p)); [|reflexivity].
  destruct H as [-> | ->]; reflexivity.
Qed.

Lemma toggleCollapse_missing_menu_witness :
  getElementById "help-menu" (world menu_page) = None
  /\ toggleCollapse "help-menu" menu_page = (menu_page, ThrewTypeError).
Proof.
  split; [reflexivity|].
  apply (toggleCollapse_missing_menu "help-menu" menu_page). left. reflexivity.
Defined.

(** *** The request functions *)

Lemma show_effects id d h (w : World) : effects (show id d h w) = effects w.
Proof. unfold show. destruct d; reflexivity. Qed.

Lemma show_other id id' d h (w : World) :
  id' <> id -> getElementById id' (show id d h w) = getElementById id' w.
Proof.
  intros Hne. unfold show, getElementById. destruct d; simpl; [|reflexivity].
  apply lookup_insert_ne. congruence.
Qed.

Lemma show_shown id e h (w : World) : shown id (show id (Some e) h w) = Some h.
Proof. unfold shown, show, getElementById. simpl. rewrite lookup_insert_eq. reflexivity. Qed.

Lemma show_twice id e e' h h' (w : World) :
  shown id (show id (Some e) h (emit e' (show id (Some e) h' w))) = Some h.
Proof. apply show_shown. Qed.

(** X9: The scripts judge a reply by its body alone: neither the HTTP status
    nor the time of the reply changes what a request function does.  A
    reply with status 500 and a JSON object for a body is reported as a
    success. *)
Theorem replies_are_judged_by_their_body
    (server server' : jsstring -> ServerBehaviour) (w : World) :
  (forall url, same_body (server url) (server' url)) ->
  scanFullMarket server w = scanFullMarket server' w
  /\ analyzeCustomSymbol server w = analyzeCustomSymbol server' w
  /\ getSignals server w = getSignals server' w.
Proof.
  intros Hs.
  assert (Hf : forall url div onData onError w0,
            fetch_then server url div onData onError w0
            = fetch_then server' url div onData onError w0).
  { intros url div onData onError w0. unfold fetch_then. specialize (Hs url).
    destruct (server url) as [t st body | t |], (server' url) as [t' st' body' | t' |];
      simpl in Hs; try contradiction; subst; reflexivity. }
  unfold scanFullMarket, analyzeCustomSymbol, getSignals.
  split; [apply Hf|]. split; [|apply Hf].
  destruct (symbol_of _) as [[|c rest]|]; try reflexivity. apply Hf.
Qed.

Lemma replies_are_judged_by_their_body_witness :
  (forall url : jsstring,
      same_body (Replies 5 200 (Some (JObj (Some 3%N) None)))
                (Replies 9000 500 (Some (JObj (Some 3%N) None))))
  /\ scanFullMarket (fun _ => Replies 5 200 (Some (JObj (Some 3%N) None))) scanner_page
     = scanFullMarket (fun _ => Replies 9000 500 (Some (JObj (Some 3%N) None)))
         scanner_page.
Proof.
  assert (H : forall url : jsstring,
             same_body (Replies 5 200 (Some (JObj (Some 3%N) None)))
                       (Replies 9000 500 (Some (JObj (Some 3%N) None))))
    by (intros; reflexivity).
  split; [exact H|].
  apply (replies_are_judged_by_their_body
           (fun _ => Replies 5 200 (Some (JObj (Some 3%N) None)))
           (fun _ => Replies 9000 500 (Some (JObj (Some 3%N) None)))
           scanner_page H).
Defined.

Lemma loading_is_no_report text colour headline detail :
  loading text <> report colour headline detail.
Proof.
  intros H. apply (f_equal (fun l => nth 5 l 0%N)) in H. vm_compute in H. discriminate.
Qed.

Lemma loading_is_no_error text colour notice : loading text <> styled colour notice.
Proof.
  intros H. apply (f_equal (fun l => nth 5 l 0%N)) in H. vm_compute in H. discriminate.
Qed.

Lemma scanFullMarket_cases (server : jsstring -> ServerBehaviour) (w : World)
    (div : Element) :
  getElementById "scanner-results" w = Some div ->
  effects (fst (scanFullMarket server w))
  = effects w ++ [ConsoleLog [lit "Scanning full market..."];
                  Fetch (lit "/api/scan/full-market")]
              ++ (if fails (server (lit "/api/scan/full-market"))
                  then [ConsoleError (lit "Scan error:")] else [])
  /\ match server (lit "/api/scan/full-market") with
     | Silent =>
         snd (scanFullMarket server w) = AwaitsForever
         /\ shown "scanner-results" (fst (scanFullMarket server w)) = Some scan_loading
     | Replies _ _ (Some (JObj len msg)) =>
         snd (scanFullMarket server w) = Returned
         /\ shown "scanner-results" (fst (scanFullMarket server w))
            = Some (report "#4CAF50"
                      ([0x2705%N] ++ lit " Market scan completed! Found "
                       ++ decimal (or_zero len) ++ lit " signals")
                      (or_else msg (lit "Market analysis complete")))
     | _ =>
         snd (scanFullMarket server w) = Returned
         /\ shown "scanner-results" (fst (scanFullMarket server w)) = Some scan_error
     end.
Proof.
  intros Hdiv. unfold scanFullMarket, fetch_then.
  assert (Hd : getElementById "scanner-results"
                 (emit (ConsoleLog [lit "Scanning full market..."]) w) = Some div)
    by exact Hdiv.
  rewrite Hd.
  destruct (server (lit "/api/scan/full-market")) as [t st [[|len msg]|] | t |];
    cbn [window_fetch res_body fst snd fails];
    rewrite ?show_effects; cbn [emit effects]; rewrite ?show_effects;
    cbn [emit effects]; rewrite <- ?app_assoc;
    (split; [reflexivity|]); (split; [reflexivity|]);
    first [apply show_shown | unfold shown; cbn [emit getElementById document];
                              apply show_shown].
Qed.

Lemma getSignals_cases (server : jsstring -> ServerBehaviour) (w : World)
    (div : Element) :
  getElementById "signals-display" w = Some div ->
  effects (fst (getSignals server w))
  = effects w ++ [ConsoleLog [lit "Getting live signals..."];
                  Fetch (lit "/api/live/signals")]
              ++ (if fails (server (lit "/api/live/signals"))
                  then [ConsoleError (lit "Signals error:")] else [])
  /\ match server (lit "/api/live/signals") with
     | Silent =>
         snd (getSignals server w) = AwaitsForever
         /\ shown "signals-display" (fst (getSignals server w)) = Some signals_loading
     | Replies _ _ (Some (JObj len msg)) =>
         snd (getSignals server w) = Returned
         /\ shown "signals-display" (fst (getSignals server w))
            = Some (report "#9C27B0" (astral 0x1F4C8 ++ lit " Live Signals")
                      (or_else msg (lit "Live signals loaded")))
     | _ =>
         snd (getSignals server w) = Returned
         /\ shown "signals-display" (fst (getSignals server w)) = Some signals_error
     end.
Proof.
  intros Hdiv. unfold getSignals, fetch_then.
  assert (Hd : getElementById "signals-display"
                 (emit (ConsoleLog [lit "Getting live signals..."]) w) = Some div)
    by exact Hdiv.
  rewrite Hd.
  destruct (server (lit "/api/live/signals")) as [t st [[|len msg]|] | t |];
    cbn [window_fetch res_body fst snd fails];
    rewrite ?show_effects; cbn [emit effects]; rewrite ?show_effects;
    cbn [emit effects]; rewrite <- ?app_assoc;
    (split; [reflexivity|]); (split; [reflexivity|]);
    first [apply show_shown | unfold shown; cbn [emit getElementById document];
                              apply show_shown].
Qed.

(** X10: When a request fails (the network fails, the body is no JSON, or the
    body is [null]), [scanFullMarket] and [getSignals] log the error to
    the console and put their error notice in place of the loading
    notice. *)
Theorem failed_requests_show_the_error_notice
    (server : jsstring -> ServerBehaviour) (w : World) (div : Element) :
  (getElementById "scanner-results" w = Some div ->
   fails (server (lit "/api/scan/full-market")) = true ->
   snd (scanFullMarket server w) = Returned
   /\ shown "scanner-results" (fst (scanFullMarket server w)) = Some scan_error
   /\ effects (fst (scanFullMarket server w))
      = effects w ++ [ConsoleLog [lit "Scanning full market..."];
                      Fetch (lit "/api/scan/full-market");
                      ConsoleError (lit "Scan error:")])
  /\ (getElementById "signals-display" w = Some div ->
      fails (server (lit "/api/live/signals")) = true ->
      snd (getSignals server w) = Returned
      /\ shown "signals-display" (fst (getSignals server w)) = Some signals_error
      /\ effects (fst (getSignals server w))
         = effects w ++ [ConsoleLog [lit "Getting live signals..."];
                         Fetch (lit "/api/live/signals");
                         ConsoleError (lit "Signals error:")]).
Proof.
  split; intros Hdiv Hfail.
  - destruct (scanFullMarket_cases server w div Hdiv) as [He Hc].
    rewrite Hfail in He. rewrite He.
    destruct (server (lit "/api/scan/full-market")) as [t st [[|len msg]|] | t |];
      try discriminate; destruct Hc as [Hr Hs]; auto.
  - destruct (getSignals_cases server w div Hdiv) as [He Hc].
    rewrite Hfail in He. rewrite He.
    destruct (server (lit "/api/live/signals")) as [t st [[|len msg]|] | t |];
      try discriminate; destruct Hc as [Hr Hs]; auto.
Qed.

Lemma failed_requests_show_the_error_notice_witness :
  (getElementById "scanner-results" scanner_page = Some createElement
   /\ fails (Replies 20 502 None) = true)
  /\ shown "scanner-results"
       (fst (scanFullMarket (fun _ => Replies 20 502 None) scanner_page))
     = Some scan_error.
Proof.
  split; [split; reflexivity|].
  destruct (failed_requests_show_the_error_notice
              (fun _ => Replies 20 502 None) scanner_page createElement) as [Hs _].
  apply Hs; reflexivity.
Defined.

(** X11: The loading notice of [scanFullMarket] and of [getSignals] stays on
    the page exactly when the server never answers; in every other case
    the function returns and the notice has been replaced. *)
Theorem loading_notice_stays_only_without_answer
    (server : jsstring -> ServerBehaviour) (w : World) (div : Element) :
  (getElementById "scanner-results" w = Some div ->
   (shown "scanner-results" (fst (scanFullMarket server w)) = Some scan_loading
    <-> server (lit "/api/scan/full-market") = Silent)
   /\ (snd (scanFullMarket server w) = AwaitsForever
       <-> server (lit "/api/scan/full-market") = Silent)
   /\ (snd (scanFullMarket server w) = Returned
       <-> server (lit "/api/scan/full-market") <> Silent))
  /\ (getElementById "signals-display" w = Some div ->
      (shown "signals-display" (fst (getSignals server w)) = Some signals_loading
       <-> server (lit "/api/live/signals") = Silent)
      /\ (snd (getSignals server w) = AwaitsForever
          <-> server (lit "/api/live/signals") = Silent)
      /\ (snd (getSignals server w) = Returned
          <-> server (lit "/api/live/signals") <> Silent)).
Proof.
  assert (Hno : forall text x, Some x = Some (loading text) ->
                  (exists c h d, x = report c h d) \/ (exists c n, x = styled c n) ->
                  False).
  { intros text x Hx [(c & h & d & ->) | (c & n & ->)].
    - apply (loading_is_no_report text c h d). congruence.
    - apply (loading_is_no_error text c n). congruence. }
  split; intros Hdiv.
  - destruct (scanFullMarket_cases server w div Hdiv) as [_ Hc].
    destruct (server (lit "/api/scan/full-market")) as [t st [[|len msg]|] | t |];
      destruct Hc as [-> ->];
      (split; [|split]); split; try congruence; try discriminate;
      intros Hx; exfalso; apply (Hno _ _ Hx); unfold scan_error; eauto 6.
  - destruct (getSignals_cases server w div Hdiv) as [_ Hc].
    destruct (server (lit "/api/live/signals")) as [t st [[|len msg]|] | t |];
      destruct Hc as [-> ->];
      (split; [|split]); split; try congruence; try discriminate;
      intros Hx; exfalso; apply (Hno _ _ Hx); unfold signals_error; eauto 6.
Qed.

Lemma loading_notice_stays_only_without_answer_witness :
  getElementById "scanner-results" scanner_page = Some createElement
  /\ (snd (scanFullMarket (fun _ => Drops 3) scanner_page) = Returned
      <-> Drops 3 <> Silent).
Proof.
  split; [reflexivity|].
  destruct (loading_notice_stays_only_without_answer
              (fun _ => Drops 3) scanner_page createElement) as [Hs _].
  apply (Hs eq_refl).
Defined.

Lemma fetch_then_other id server url div onData onError (w : World) :
  (forall a b w0, getElementById id (onData a b w0) = getElementById id w0) ->
  (forall w0, getElementById id (onError w0) = getElementById id w0) ->
  getElementById id (fst (fetch_then server url div onData onError w))
  = getElementById id w.
Proof.
  intros Hd He. unfold fetch_then.
  destruct (window_fetch _) as [t r | t e |]; cbn [fst];
    [|rewrite He; reflexivity | reflexivity].
  destruct (res_body r) as [[|len msg]|]; cbn [fst];
    [destruct div; cbn [fst]; [rewrite He|]; reflexivity
    | rewrite Hd; reflexivity | rewrite He; reflexivity].
Qed.

Lemma fetch_then_effects server url div onData onError label (w : World) :
  (forall a b w0, effects (onData a b w0) = effects w0) ->
  (forall w0, effects (onError w0) = effects w0 ++ [ConsoleError label]) ->
  exists tail,
    effects (fst (fetch_then server url div onData onError w))
    = effects w ++ Fetch url :: tail
    /\ (tail = [] \/ tail = [ConsoleError label]).
Proof.
  intros Hd He. unfold fetch_then.
  destruct (window_fetch _) as [t r | t e |]; cbn [fst].
  - destruct (res_body r) as [[|len msg]|]; cbn [fst].
    + destruct div; cbn [fst].
      * exists [ConsoleError label]. rewrite He. simpl. rewrite <- app_assoc. auto.
      * exists []. auto.
    + exists []. rewrite Hd. auto.
    + exists [ConsoleError label]. rewrite He. simpl. rewrite <- app_assoc. auto.
  - exists [ConsoleError label]. rewrite He. simpl. rewrite <- app_assoc. auto.
  - exists []. auto.
Qed.

(** X12: A request function writes to its own results element and to nothing
    else in the document; in particular [analyzeCustomSymbol] leaves the
    analyzer input as it is.  [scanFullMarket] and [getSignals] never
    show an alert. *)
Theorem request_functions_frame
    (server : jsstring -> ServerBehaviour) (w : World) (id : string) :
  (id <> "scanner-results" ->
   getElementById id (fst (scanFullMarket server w)) = getElementById id w)
  /\ (id <> "analyzer-results" ->
      getElementById id (fst (analyzeCustomSymbol server w)) = getElementById id w)
  /\ (id <> "signals-display" ->
      getElementById id (fst (getSignals server w)) = getElementById id w)
  /\ (forall msg, In (Alert msg) (effects (fst (scanFullMarket server w))) ->
                  In (Alert msg) (effects w))
  /\ (forall msg, In (Alert msg) (effects (fst (getSignals server w))) ->
                  In (Alert msg) (effects w)).
Proof.
  split; [|split; [|split; [|split]]].
  - intros Hne. unfold scanFullMarket.
    rewrite fetch_then_other.
    + rewrite show_other by exact Hne. reflexivity.
    + intros a b w0. apply show_other, Hne.
    + intros w0. rewrite show_other by exact Hne. reflexivity.
  - intros Hne. unfold analyzeCustomSymbol.
    destruct (symbol_of _) as [[|c rest]|]; try reflexivity.
    rewrite fetch_then_other.
    + rewrite show_other by exact Hne. reflexivity.
    + intros a b w0. apply show_other, Hne.
    + intros w0. rewrite show_other by exact Hne. reflexivity.
  - intros Hne. unfold getSignals.
    rewrite fetch_then_other.
    + rewrite show_other by exact Hne. reflexivity.
    + intros a b w0. apply show_other, Hne.
    + intros w0. rewrite show_other by exact Hne. reflexivity.
  - intros msg. unfold scanFullMarket.
    edestruct fetch_then_effects as (tail & -> & Ht);
      [ intros a b w0; apply show_effects
      | intros w0; cbv beta; rewrite show_effects; reflexivity |].
    rewrite show_effects. cbn [emit effects]. rewrite !in_app_iff.
    intros [[H | [H | []]] | [H | H]]; try discriminate; [exact H|].
    destruct Ht as [-> | ->]; [destruct H | destruct H as [H | []]; discriminate].
  - intros msg. unfold getSignals.
    edestruct fetch_then_effects as (tail & -> & Ht);
      [ intros a b w0; apply show_effects
      | intros w0; cbv beta; rewrite show_effects; reflexivity |].
    rewrite show_effects. cbn [emit effects]. rewrite !in_app_iff.
    intros [[H | [H | []]] | [H | H]]; try discriminate; [exact H|].
    destruct Ht as [-> | ->]; [destruct H | destruct H as [H | []]; discriminate].
Qed.

Lemma request_functions_frame_witness :
  "analyze-symbol" <> "analyzer-results"
  /\ getElementById "analyze-symbol"
       (fst (analyzeCustomSymbol (fun _ => Drops 1) blank_page))
     = getElementById "analyze-symbol" blank_page.
Proof.
  split; [discriminate|].
  destruct (request_functions_frame (fun _ => Drops 1) blank_page "analyze-symbol")
    as (_ & Ha & _).
  apply Ha. discriminate.
Defined.

(** X13: [analyzeCustomSymbol] either shows its alert or sends one request,
    never both: with a blank input it adds the alert and nothing else;
    otherwise it logs the trimmed symbol, requests [/api/analyze/] followed
    by the trimmed symbol as it stands, and at most logs an error after
    that. *)
Theorem analyzeCustomSymbol_alerts_or_fetches
    (server : jsstring -> ServerBehaviour) (w : World) :
  (blank (getElementById "analyze-symbol" w) = true
   /\ effects (fst (analyzeCustomSymbol server w))
      = effects w ++ [Alert (lit "Please enter a symbol to analyze")])
  \/ (blank (getElementById "analyze-symbol" w) = false
      /\ exists input v tail,
           getElementById "analyze-symbol" w = Some input
           /\ el_value input = Some v
           /\ trim v <> []
           /\ effects (fst (analyzeCustomSymbol server w))
              = effects w ++ ConsoleLog [lit "Analyzing symbol:"; trim v]
                          :: Fetch (lit "/api/analyze/" ++ trim v) :: tail
           /\ (tail = [] \/ tail = [ConsoleError (lit "Analysis error:")])).
Proof.
  unfold analyzeCustomSymbol.
  destruct (getElementById "analyze-symbol" w) as [input|] eqn:Hin;
    [|left; split; reflexivity].
  cbn [symbol_of blank].
  destruct (el_value input) as [v|] eqn:Hv; [|left; split; reflexivity].
  cbn [option_map].
  destruct (trim v) as [|c rest] eqn:Ht.
  - left. split; [apply CleanScriptFacts.trim_blank, Ht | reflexivity].
  - right. split.
    + destruct (whitespace_only v) eqn:Hw; [|reflexivity].
      apply CleanScriptFacts.trim_blank in Hw. congruence.
    + exists input, v.
      edestruct fetch_then_effects as (tail & -> & Htail);
        [ intros a b w0; apply show_effects
        | intros w0; cbv beta; rewrite show_effects; reflexivity |].
      exists tail. rewrite show_effects. cbn [emit effects]. rewrite <- app_assoc.
      split; [reflexivity|]. split; [exact Hv|]. rewrite ?Ht.
      split; [discriminate|]. split; [reflexivity | exact Htail].
Qed.

End MarketPageFacts.

(** ** Further properties of the axios client and its configuration *)

Module ApiServiceFacts.
Import Net ApiService ApiConfig MoreSamples.

(** X14: Every function of [apiService] sends its request to a path under
    [/api/] of the configured base URL. *)
Theorem apiService_urls_under_api (baseURL : jsstring) (c : Call) :
  exists rest, req_url (request_of baseURL c) = baseURL ++ lit "/api/" ++ rest.
Proof.
  destruct c; simpl;
    unfold markets, signals, analysis, sentiment, portfolio;
    rewrite <- ?app_assoc;
    match goal with
    | |- exists rest, baseURL ++ lit ?s ++ ?tl = _ =>
        exists (skipn 5 (lit s) ++ tl); reflexivity
    | |- exists rest, baseURL ++ lit ?s = _ =>
        exists (skipn 5 (lit s)); reflexivity
    end.
Qed.

(** X15: A promise of [apiService] is fulfilled exactly when the server
    replies within 10000 ms with a status from 200 to 299, and then it
    carries that reply; every other outcome of the request is a
    rejection. *)
Theorem apiService_fulfilled_iff
    (baseURL : jsstring) (c : Call) (b : ServerBehaviour) (t : N) (r : Response) :
  apiService baseURL c b = Fulfilled t r
  <-> (b = Replies t (res_status r) (res_body r)
       /\ (t <= 10000)%N
       /\ (200 <= res_status r)%N /\ (res_status r < 300)%N).
Proof.
  unfold apiService, send.
  rewrite (TimeoutFacts.request_of_timeout baseURL c).
  change (0 <? 10000)%N with true. cbn [andb].
  destruct b as [t' st body | t' |].
  - destruct (N.ltb_spec 10000 t') as [Hlt | Hle].
    + split; [discriminate|]. intros (H & Ht & _). inversion H; subst. lia.
    + unfold validateStatus.
      destruct (N.leb_spec 200 st) as [H2 | H2], (N.ltb_spec st 300) as [H3 | H3];
        cbn [andb]; split;
        try discriminate;
        try (intros H; inversion H; subst; cbn [res_status res_body]; auto; fail);
        try (intros (H & _ & Ha & Hb); inversion H; subst; destruct r;
             cbn [res_status res_body] in *; first [reflexivity | lia]).
  - destruct (10000 <? t')%N; split; try discriminate;
      intros (H & _); discriminate.
  - split; [discriminate|]. intros (H & _); discriminate.
Qed.

(** X16: Identifiers and symbols are spliced into the path as they are: a
    signal whose id is [latest/] followed by a symbol is requested with
    the very request of [getLatestSignal] for that symbol, and the id
    [dashboard] with that of [getDashboardSummary]. *)
Theorem apiService_paths_are_not_escaped (baseURL symbol : jsstring) :
  request_of baseURL (getSignal (lit "latest/" ++ symbol))
  = request_of baseURL (getLatestSignal symbol)
  /\ request_of baseURL (getSignal (lit "history/" ++ symbol))
     = request_of baseURL (getSignalHistory symbol)
  /\ request_of baseURL (getSignal (lit "dashboard"))
     = request_of baseURL getDashboardSummary
  /\ request_of baseURL (getMarketData (symbol ++ lit "/history?period=1mo"))
     = request_of baseURL (getPriceHistory symbol None)
  /\ request_of baseURL (getPosition (lit "watchlist"))
     = request_of baseURL getWatchlist.
Proof.
  unfold request_of, request. repeat split; f_equal;
    rewrite <- ?app_assoc; reflexivity.
Qed.

(** X17: In development every request goes to [http://localhost:8000],
    whatever [REACT_APP_API_URL] holds; otherwise it goes to
    [REACT_APP_API_URL], and to the placeholder host when that variable
    is unset or empty. *)
Theorem configured_base_url (env : Env) (c : Call) :
  exists rest,
    req_url (configured env c) = API_BASE_URL env ++ lit "/api/" ++ rest
    /\ (NODE_ENV env = Some (lit "development") ->
        API_BASE_URL env = lit "http://localhost:8000")
    /\ (NODE_ENV env <> Some (lit "development") ->
        (REACT_APP_API_URL env = None \/ REACT_APP_API_URL env = Some []) ->
        API_BASE_URL env = lit "https://your-app-name.onrender.com")
    /\ (NODE_ENV env <> Some (lit "development") ->
        forall u, REACT_APP_API_URL env = Some u -> u <> [] ->
        API_BASE_URL env = u).
Proof.
  destruct (apiService_urls_under_api (API_BASE_URL env) c) as [rest Hr].
  exists rest. split; [exact Hr|].
  unfold API_BASE_URL, isDevelopment, production_baseURL.
  split; [|split].
  - intros H. rewrite bool_decide_eq_true_2 by exact H. reflexivity.
  - intros H Hu. rewrite bool_decide_eq_false_2 by exact H.
    destruct Hu as [-> | ->]; reflexivity.
  - intros H u Hu Hne. rewrite bool_decide_eq_false_2 by exact H.
    rewrite Hu. destruct u; [contradiction | reflexivity].
Qed.

Lemma configured_base_url_witness :
  (NODE_ENV unset_production <> Some (lit "development")
   /\ REACT_APP_API_URL unset_production = Some [])
  /\ API_BASE_URL unset_production = lit "https://your-app-name.onrender.com".
Proof.
  assert (H : NODE_ENV unset_production <> Some (lit "development")) by discriminate.
  split; [split; [exact H | reflexivity]|].
  destruct (configured_base_url unset_production getMarkets) as (rest & _ & _ & Hp & _).
  apply Hp; [exact H | right; reflexivity].
Defined.

End ApiServiceFacts.

(** ** Properties of the dashboard component *)

Module DashboardViewFacts.
Import Dashboard DashboardView.

Lemma step_settled (st : State) (ev : Event) : settled st -> settled (step st ev).
Proof.
  intros [(Ht & Hl & Hm & Hs) | [(Ht & Hl & Hm & Hs) | (Ht & Hl & Hm & Hs)]];
    destruct ev as [now|]; unfold step, settled; rewrite ?Ht, ?Hl;
    cbn; rewrite ?Ht, ?Hl; cbn;
    first [ left; repeat split; congruence
          | right; left; repeat split; congruence
          | right; right; repeat split; congruence ].
Qed.

Lemma run_settled (events : list Event) (st : State) :
  settled st -> settled (run events st).
Proof.
  unfold run. revert st. induction events as [|ev events IH]; intros st H; simpl.
  - exact H.
  - apply IH, step_settled, H.
Qed.

(** X18: Whatever the user and the timers do after the component is mounted,
    the component is loading exactly while one timer is pending, at most
    one timer is ever pending, and once the first load is over the market
    data and the signals are the mock tables: "Refresh Data" brings no
    new data, it only renews the time of the last update. *)
Theorem refresh_never_changes_the_data (now : Z) (events : list Event) :
  let st := run events (mount now) in
  (loading st = true <-> timers st <> [])
  /\ (length (timers st) <= 1)%nat
  /\ (loading st = false ->
      marketData st = mockMarketData /\ signals st = mockSignals)
  /\ (marketData st = [] \/ marketData st = mockMarketData)
  /\ (forall ev, marketData st = mockMarketData ->
                 marketData (step st ev) = mockMarketData
                 /\ signals (step st ev) = signals st).
Proof.
  intros st.
  assert (H : settled st).
  { apply run_settled. left. repeat split. }
  split; [|split; [|split; [|split]]].
  - destruct H as [(Ht & Hl & _) | [(Ht & Hl & _) | (Ht & Hl & _)]];
      rewrite Ht, Hl; split; congruence.
  - destruct H as [(Ht & _) | [(Ht & _) | (Ht & _)]]; rewrite Ht; simpl; lia.
  - destruct H as [(_ & Hl & _) | [(_ & _ & Hm & Hs) | (_ & Hl & _)]];
      intros Hf; try congruence. auto.
  - destruct H as [(_ & _ & Hm & _) | [(_ & _ & Hm & _) | (_ & _ & Hm & _)]]; auto.
  - intros ev Hm.
    destruct H as [(_ & _ & Hm' & _) | [(Ht & Hl & _ & Hs) | (Ht & Hl & _ & Hs)]].
    + rewrite Hm' in Hm. discriminate.
    + destruct ev; unfold step; rewrite ?Ht, ?Hl; simpl; auto.
    + destruct ev; unfold step; rewrite ?Ht, ?Hl; simpl; auto.
Qed.

Example refresh_renews_the_time :
  lastUpdate (run [TimerFires 1000; ClickRefresh; ClickRefresh; TimerFires 2500] (mount 0))
  = 2500%Z
  /\ timers (run [TimerFires 1000; ClickRefresh; ClickRefresh] (mount 0))
     = [FinishRefresh].
Proof. split; reflexivity. Qed.

(** X19: A trend is painted as rising, in colour and in icon, exactly for
    'UP'; every other trend gets the falling icon, in the error colour
    for 'DOWN' and in the warning colour otherwise. *)
Theorem trend_chip (trend : jsstring) :
  (getTrendColor trend = success <-> trend = lit "UP")
  /\ (trendIcon trend = TrendingUp <-> trend = lit "UP")
  /\ (getTrendColor trend = error <-> trend = lit "DOWN")
  /\ (getTrendColor trend = warning <->
      trend <> lit "UP" /\ trend <> lit "DOWN")
  /\ (getTrendColor trend = warning -> trendIcon trend = TrendingDown)
  /\ getTrendColor trend <> default.
Proof.
  unfold getTrendColor, trendIcon.
  repeat case_decide; subst; repeat split; intros; try discriminate;
    try congruence; try reflexivity;
    try (match goal with H : _ /\ _ |- _ => destruct H; congruence end).
Qed.

End DashboardViewFacts.

(** ** Properties of the navigation shell *)

Module AppShellFacts.
Import AppShell MoreSamples.

Lemma active_cases (s : Shell) :
  (active s = [] /\ title s = lit "Dashboard"
   /\ forall item, In item menuItems -> path item <> pathname s)
  \/ exists item, In item menuItems /\ path item = pathname s
                  /\ active s = [item] /\ title s = text item.
Proof.
  destruct s as [o p m].
  destruct (decide (p = lit "/")) as [-> | H1];
    [right; exists {| text := lit "Dashboard"; path := lit "/" |};
     split; [simpl; tauto | repeat split]|].
  destruct (decide (p = lit "/scanner")) as [-> | H2];
    [right; exists {| text := lit "Market Scanner"; path := lit "/scanner" |};
     split; [simpl; tauto | repeat split]|].
  destruct (decide (p = lit "/signals")) as [-> | H3];
    [right; exists {| text := lit "Trading Signals"; path := lit "/signals" |};
     split; [simpl; tauto | repeat split]|].
  destruct (decide (p = lit "/analysis")) as [-> | H4];
    [right; exists {| text := lit "Technical Analysis"; path := lit "/analysis" |};
     split; [simpl; tauto | repeat split]|].
  destruct (decide (p = lit "/sentiment")) as [-> | H5];
    [right; exists {| text := lit "Sentiment Analysis"; path := lit "/sentiment" |};
     split; [simpl; tauto | repeat split]|].
  destruct (decide (p = lit "/portfolio")) as [-> | H6];
    [right; exists {| text := lit "Portfolio"; path := lit "/portfolio" |};
     split; [simpl; tauto | repeat split]|].
  left. unfold active, title, isActiveRoute, menuItems.
  cbn [pathname List.filter List.find path].
  repeat (rewrite bool_decide_eq_false_2 by congruence;
          cbn [List.filter List.find path]).
  split; [reflexivity|]. split; [reflexivity|].
  intros item Hin.
  repeat destruct Hin as [<- | Hin]; try (cbn [path]; congruence). destruct Hin.
Qed.

(** X20: At every location at most one entry of the menu is painted as active,
    and the title of the app bar is the text of that entry; where no entry
    is active the title is 'Dashboard'. *)
Theorem one_active_entry_names_the_title (s : Shell) :
  (length (active s) <= 1)%nat
  /\ (forall item, In item (active s) ->
        In item menuItems /\ path item = pathname s /\ title s = text item)
  /\ (active s = [] -> title s = lit "Dashboard")
  /\ (forall item, In item menuItems -> path item = pathname s ->
        active s = [item]).
Proof.
  destruct (active_cases s) as [(Ha & Ht & Hn) | (item & Hin & Hp & Ha & Ht)].
  - rewrite Ha. split; [simpl; lia|]. split; [intros item []|].
    split; [intros _; exact Ht|]. intros item Hin Hp. destruct (Hn item Hin Hp).
  - rewrite Ha. split; [simpl; lia|]. split.
    + intros item' [<- | []]. auto.
    + split; [discriminate|]. intros item' Hin' Hp'.
      assert (Hin2 : In item' (active s)).
      { unfold active. apply filter_In. split; [exact Hin'|].
        unfold isActiveRoute. apply bool_decide_eq_true_2. congruence. }
      rewrite Ha in Hin2. destruct Hin2 as [<- | []]. reflexivity.
Qed.

(** X21: Choosing an entry of the menu makes it the one active entry and puts
    its text in the title; on a mobile viewport the drawer closes, on a
    wide one it stays as it is. *)
Theorem navigation_activates_the_chosen_entry (item : MenuItem) (s : Shell) :
  In item menuItems ->
  let s' := handleNavigation (path item) s in
  active s' = [item]
  /\ title s' = text item
  /\ isMobile s' = isMobile s
  /\ (isMobile s = true -> open s' = false)
  /\ (isMobile s = false -> open s' = open s).
Proof.
  intros Hin s'.
  destruct (one_active_entry_names_the_title s') as (_ & Ht & _ & Ha).
  assert (Hact : active s' = [item]) by (apply Ha; [exact Hin | reflexivity]).
  split; [exact Hact|]. split.
  - destruct (Ht item) as (_ & _ & H); [rewrite Hact; left; reflexivity | exact H].
  - subst s'. unfold handleNavigation. cbn [open isMobile].
    split; [reflexivity|]. split; intros ->; reflexivity.
Qed.

Lemma navigation_activates_the_chosen_entry_witness :
  In {| text := lit "Portfolio"; path := lit "/portfolio" |} menuItems
  /\ title (handleNavigation (lit "/portfolio") phone_on_signals) = lit "Portfolio"
  /\ open (handleNavigation (lit "/portfolio") phone_on_signals) = false.
Proof.
  assert (Hin : In {| text := lit "Portfolio"; path := lit "/portfolio" |} menuItems).
  { simpl. tauto. }
  split; [exact Hin|].
  destruct (navigation_activates_the_chosen_entry
              {| text := lit "Portfolio"; path := lit "/portfolio" |}
              phone_on_signals Hin) as (_ & Ht & _ & Ho & _).
  split; [exact Ht | exact (Ho eq_refl)].
Defined.

(** The drawer button undoes itself, and on a wide viewport the drawer is
    open after the viewport effect whatever it was before. *)
Lemma drawer_toggle_twice (s : Shell) :
  handleDrawerToggle (handleDrawerToggle s) = s.
Proof. destruct s as [[] p m]; reflexivity. Qed.

End AppShellFacts.

(** ** Properties of the launch scripts *)

Module ScriptsFacts.
Import Scripts.

Ltac steps :=
  cbn [app In List.last negb fst snd] in *;
  repeat match goal with
    | H : _ \/ _ |- _ => destruct H
    | H : _ /\ _ |- _ => destruct H
    | H : False |- _ => destruct H
    | H : Echo _ = _ |- _ => discriminate H
    | H : Sleep _ = _ |- _ => discriminate H
    | H : Run _ = Run _ |- _ => first [discriminate H | clear H]
    | H : true = false |- _ => discriminate H
    | H : false = true |- _ => discriminate H
    | |- _ /\ _ => split
    | |- _ <-> _ => split; intros
    | |- _ -> _ => intros
    end;
  try reflexivity; try congruence; try lia;
  try (repeat first [left; reflexivity | right]; fail);
  try match goal with
      | H : ~ _ |- _ =>
          exfalso; apply H; repeat first [left; reflexivity | right]
      end.

(** X22: [start_frontend.sh] starts the development server exactly when node
    and npm are installed and the dependencies are in place, already there
    or just installed without error; the script then ends with the status
    of [npm start].  In every other case it exits with status 1 and starts
    nothing.  [npm install] is run exactly when node and npm are installed
    and [node_modules] is missing. *)
Theorem start_frontend_starts_only_when_ready (e : Frontend) :
  (In (Run "npm start") (fst (start_frontend e)) <->
   node e = true /\ npm e = true
   /\ (node_modules e = true \/ npm_install e = 0%N))
  /\ (In (Run "npm install") (fst (start_frontend e)) <->
      node e = true /\ npm e = true /\ node_modules e = false)
  /\ (In (Run "npm start") (fst (start_frontend e)) ->
      snd (start_frontend e) = npm_start e
      /\ List.last (fst (start_frontend e)) (Echo "") = Run "npm start")
  /\ (~ In (Run "npm start") (fst (start_frontend e)) ->
      snd (start_frontend e) = 1%N).
Proof.
  unfold start_frontend.
  destruct (node e), (npm e), (node_modules e); cbn [negb];
    try destruct (N.eqb_spec (npm_install e) 0) as [H0 | H0];
    steps.
Qed.

(** X23: [deploy.sh] does not look at how the build or the start of the
    services ended: with docker and docker-compose installed both commands
    are run whatever the build returned, and the exit status is 0 exactly
    when the application answers after the wait. *)
Theorem deploy_ignores_build_failures (e : Deployment) :
  (snd (deploy e) = 0%N <->
   docker e = true /\ docker_compose e = true /\ answers e = true)
  /\ (snd (deploy e) = 0%N \/ snd (deploy e) = 1%N)
  /\ (docker e = true -> docker_compose e = true ->
      In (Run "docker-compose build") (fst (deploy e))
      /\ In (Run "docker-compose up -d") (fst (deploy e))
      /\ In (Sleep 10) (fst (deploy e)))
  /\ (forall b u,
        deploy {| docker := docker e; docker_compose := docker_compose e;
                  build := b; up := u; answers := answers e |}
        = deploy e).
Proof.
  unfold deploy.
  destruct (docker e), (docker_compose e), (answers e); steps.
Qed.

End ScriptsFacts.
